(** * Disaster-recovery automation (infrastructure/backup-dr/dr-automation.py)

    A shallow embedding of the [DisasterRecoveryAutomation] class: the
    Lambda handler, the health check with its four sub-checks, failover,
    failback, the DR test and the bounded status poll.

    The boto3 clients are external collaborators.  Every call on one of
    them is recorded in a chronological trace, and what the call answers
    (a response or a raised exception) is given by an oracle that sees
    the trace so far, so an answer may depend on everything that happened
    before.  The methods of the class become computations in a state and
    exception monad over that trace. *)

From Stdlib Require Import ZArith String List Lia PrimFloat DecimalString.
From stdpp Require Import base option list gmap strings.
From Equations Require Import Equations.
Import ListNotations.

Local Set Warnings "-register-all".
Local Open Scope string_scope.
Local Open Scope list_scope.
Local Open Scope Z_scope.

(** ** Python values *)

(** Numbers as Python has them: [int] is unbounded, [float] is IEEE 754
    binary64. *)
Inductive pynum : Type :=
| PyInt (z : Z)
| PyFloat (f : float).

(** [x < 300] for a Python number.  The constant 300 is an exact binary64
    value and Python compares an int with a float exactly, so for a float
    this is the IEEE comparison with 300.0 (false on NaN). *)
Definition num_lt_300 (x : pynum) : bool :=
  match x with
  | PyInt z => z <? 300
  | PyFloat f => PrimFloat.ltb f 300%float
  end.

(** What [json.dumps] is applied to. *)
Inductive json : Type :=
| JNull
| JBool (b : bool)
| JNum (n : pynum)
| JStr (s : string)
| JList (l : list json)
| JObj (kv : list (string * json)).

Definition JOptStr (o : option string) : json :=
  match o with Some s => JStr s | None => JNull end.

(** Exceptions.  Every one raised here or by a collaborator is a subclass
    of [Exception], which is all that [except Exception] looks at; the
    class name and [str(e)] are kept. *)
Record exn : Type := Raise { exn_class : string; exn_str : string }.

Definition ValueError (msg : string) : exn := Raise "ValueError" msg.
Definition Exception_ (msg : string) : exn := Raise "Exception" msg.
(** [str(KeyError(k))] is the repr of the key. *)
Definition KeyError (k : string) : exn := Raise "KeyError" ("'" +:+ k +:+ "'").
Definition IndexError : exn := Raise "IndexError" "list index out of range".

(** [f"{x}"] for an optional string read with [os.environ.get]. *)
Definition fmt_opt (o : option string) : string :=
  match o with Some s => s | None => "None" end.

(** [f"{n}"] for the length of a list and for an int. *)
Definition fmt_nat (n : nat) : string := NilZero.string_of_uint (Nat.to_uint n).
Definition fmt_int (z : Z) : string := NilZero.string_of_int (Z.to_int z).

(** [f"{l}"] for a list of step names: the repr of a list of strings that
    hold no quote, backslash or control character, as all step names do. *)
Fixpoint repr_items (l : list string) : string :=
  match l with
  | [] => ""
  | [s] => "'" +:+ s +:+ "'"
  | s :: rest => "'" +:+ s +:+ "', " +:+ repr_items rest
  end.
Definition fmt_str_list (l : list string) : string := "[" +:+ repr_items l +:+ "]".

(** ** Collaborator responses *)

(** A member of [response['DBInstances']]; the service model leaves every
    member optional, [None] is an absent key. *)
Record Endpoint_t : Type := { Address : option string }.
Record DBInstance : Type := {
  DBInstanceStatus : option string;
  Endpoint : option Endpoint_t;
  MultiAZ : option bool;
  ReadReplicaSourceDBInstanceIdentifier : option string
}.
Record DescribeResponse : Type := { DBInstances : list DBInstance }.

Record Datapoint : Type := { Average : option pynum }.
Record MetricResponse : Type := { Datapoints : list Datapoint }.

(** ** Collaborator calls *)

Record MetricQuery : Type := {
  Namespace : string;
  MetricName : string;
  DimensionName : string;
  DimensionValue : string;
  Period : Z;
  Statistics : list string
}.

Record Publication : Type := {
  TopicArn : option string;
  Message : string;
  Subject : string
}.

(** The two RDS clients, [rds_primary] and [rds_dr]. *)
Inductive RdsClient : Type := rds_primary | rds_dr.

(** One entry of the trace.  [Route53] stands for any call on the
    [route53] client; the class holds that client and never calls it. *)
Inductive Event : Type :=
| DescribeDBInstances (client : RdsClient) (id : option string)
| PromoteReadReplica (client : RdsClient) (id : option string)
| CloudwatchGetMetricStatistics (q : MetricQuery)
| SnsPublish (p : Publication)
| Route53 (operation : string)
| Sleep (seconds : Z)
| Print (line : string).

Definition Trace : Type := list Event.

(** The collaborators: each answers from the trace before the call. *)
Record Env : Type := {
  describe_db_instances : RdsClient -> Trace -> option string -> exn + DescribeResponse;
  promote_read_replica : RdsClient -> Trace -> option string -> exn + unit;
  cloudwatch_get_metric_statistics : Trace -> MetricQuery -> exn + MetricResponse;
  sns_publish : Trace -> Publication -> exn + unit
}.

(** Process configuration and the library functions that are not
    modelled: [json.dumps] with and without [indent=2], and [str] of an
    action value that is not a string. *)
Record Config : Type := {
  ENVIRONMENT : string;
  DB_IDENTIFIER : option string;
  SNS_TOPIC_ARN : option string;
  timestamp : string;
  json_dumps : json -> string;
  json_dumps_indent2 : json -> string;
  str_value : json -> string
}.

(** ** The monad: a state and an exception or a value *)

(** [St S A]: from a state to the new state and a raised exception or a
    value.  The state survives an exception, as the trace and the local
    variables of a Python frame do. *)
Definition St (S A : Type) : Type := S -> S * (exn + A).

(** A method body runs over the trace; a body with the local list
    [steps_completed] runs over that list and the trace. *)
Definition M : Type -> Type := St Trace.
Definition ML : Type -> Type := St (list string * Trace).

Definition ret {S A} (a : A) : St S A := fun s => (s, inr a).
Definition raise {S A} (e : exn) : St S A := fun s => (s, inl e).
Definition bind {S A B} (m : St S A) (k : A -> St S B) : St S B :=
  fun s => match m s with
           | (s', inr a) => k a s'
           | (s', inl e) => (s', inl e)
           end.
(** [try: m  except Exception as e: h e] *)
Definition try_except {S A} (m : St S A) (h : exn -> St S A) : St S A :=
  fun s => match m s with
           | (s', inr a) => (s', inr a)
           | (s', inl e) => h e s'
           end.
(** A collaborator call: log the event, answer from the earlier trace. *)
Definition call {A} (ev : Event) (answer : Trace -> exn + A) : M A :=
  fun t => (t ++ [ev], answer t).

Notation "x <- m ;; k" := (bind m (fun x => k))
  (at level 20, m at level 99, k at level 200, format "x  <-  m  ;;  '//' k").
Notation "m ;;; k" := (bind m (fun _ => k))
  (at level 100, k at level 200, right associativity, format "m  ;;;  '//' k").

(** Run a method from inside a body that holds [steps_completed]. *)
Definition lift {A} (m : M A) : ML A :=
  fun '(steps, t) => match m t with (t', r) => ((steps, t'), r) end.
(** [steps_completed.append(step)] and reading [steps_completed]. *)
Definition append_step (step : string) : ML unit :=
  fun '(steps, t) => ((steps ++ [step], t), inr tt).
Definition get_steps : ML (list string) :=
  fun '(steps, t) => ((steps, t), inr steps).
(** [try: steps_completed = []; body  except Exception as e: h], where
    the handler reads [steps_completed] as the body left it. *)
Definition try_steps {A} (body : ML A) (h : list string -> exn -> M A) : M A :=
  fun t => match body ([], t) with
           | ((_, t'), inr a) => (t', inr a)
           | ((steps, t'), inl e) => h steps e t'
           end.

(** [d[k]] on a dict whose key may be absent, and [l[0]], [l[-1]]. *)
Definition getitem {A} (key : string) (o : option A) : M A :=
  match o with Some a => ret a | None => raise (KeyError key) end.
Definition first_item {A} (l : list A) : M A :=
  match l with a :: _ => ret a | [] => raise IndexError end.
Definition last_item {A} (l : list A) : M A :=
  match last l with Some a => ret a | None => raise IndexError end.

(** The result of a procedure: [{'statusCode': .., 'body': ..}]. *)
Record Response : Type := { statusCode : Z; body : string }.

(** A sub-check's record [{'healthy': .., ...}] and a probe's record
    [{'success': .., ...}]: the flag and the other entries in order. *)
Record HealthRecord : Type := { healthy : bool; health_fields : list (string * json) }.
Record ProbeResult : Type := { success : bool; probe_fields : list (string * json) }.

Definition health_json (h : HealthRecord) : json :=
  JObj (("healthy", JBool (healthy h)) :: health_fields h).
Definition probe_json (p : ProbeResult) : json :=
  JObj (("success", JBool (success p)) :: probe_fields p).

Section Automation.

Context (cfg : Config) (env : Env).

Definition dr_replica_id : string := fmt_opt (DB_IDENTIFIER cfg) +:+ "-dr-replica".

Definition describe (client : RdsClient) (id : option string) : M DescribeResponse :=
  call (DescribeDBInstances client id) (fun t => describe_db_instances env client t id).
Definition promote (client : RdsClient) (id : option string) : M unit :=
  call (PromoteReadReplica client id) (fun t => promote_read_replica env client t id).
(** [time.sleep(seconds)] *)
Definition sleep (seconds : Z) : M unit :=
  call (Sleep seconds) (fun _ => inr tt).

Definition subject_of (severity : string) : string :=
  "DR Automation - " +:+ severity +:+ " - " +:+ ENVIRONMENT cfg.

Definition publication (message severity : string) : Publication :=
  {| TopicArn := SNS_TOPIC_ARN cfg;
     Message := message +:+ "

Timestamp: " +:+ timestamp cfg +:+ "
Environment: " +:+ ENVIRONMENT cfg;
     Subject := subject_of severity |}.

(** [send_notification]: publish, and print instead of raising. *)
Definition send_notification (message severity : string) : M unit :=
  try_except
    (let p := publication message severity in
     call (SnsPublish p) (fun t => sns_publish env t p))
    (fun e =>
       let line := "Failed to send notification: " +:+ exn_str e in
       call (Print line) (fun _ => inr tt)).

(** [db_instance.get('Endpoint', {}).get('Address')] *)
Definition endpoint_address (db_instance : DBInstance) : option string :=
  match Endpoint db_instance with
  | Some e => Address e
  | None => None
  end.

Definition unhealthy_error (e : exn) : HealthRecord :=
  {| healthy := false; health_fields := [("error", JStr (exn_str e))] |}.

Definition check_primary_database : M HealthRecord :=
  try_except
    (response <- describe rds_primary (DB_IDENTIFIER cfg) ;;
     db_instance <- first_item (DBInstances response) ;;
     status <- getitem "DBInstanceStatus" (DBInstanceStatus db_instance) ;;
     multi_az <- getitem "MultiAZ" (MultiAZ db_instance) ;;
     ret {| healthy := String.eqb status "available";
            health_fields :=
              [("status", JStr status);
               ("endpoint", JOptStr (endpoint_address db_instance));
               ("multi_az", JBool multi_az)] |})
    (fun e => ret (unhealthy_error e)).

Definition check_dr_replica : M HealthRecord :=
  try_except
    (response <- describe rds_dr (Some dr_replica_id) ;;
     db_instance <- first_item (DBInstances response) ;;
     status <- getitem "DBInstanceStatus" (DBInstanceStatus db_instance) ;;
     ret {| healthy := String.eqb status "available";
            health_fields :=
              [("status", JStr status);
               ("endpoint", JOptStr (endpoint_address db_instance));
               ("read_replica_source",
                JOptStr (ReadReplicaSourceDBInstanceIdentifier db_instance))] |})
    (fun e => ret (unhealthy_error e)).

(** The query of [check_replication_lag].  [StartTime] and [EndTime] are
    clock readings and are left out of the logged call; the answer is the
    oracle's in any case. *)
Definition replica_lag_query : MetricQuery :=
  {| Namespace := "AWS/RDS";
     MetricName := "ReplicaLag";
     DimensionName := "DBInstanceIdentifier";
     DimensionValue := dr_replica_id;
     Period := 300;
     Statistics := ["Average"] |}.

Definition check_replication_lag : M HealthRecord :=
  try_except
    (response <- call (CloudwatchGetMetricStatistics replica_lag_query)
                   (fun t => cloudwatch_get_metric_statistics env t replica_lag_query) ;;
     match Datapoints response with
     | _ :: _ =>
         datapoint <- last_item (Datapoints response) ;;
         latest_lag <- getitem "Average" (Average datapoint) ;;
         ret {| healthy := num_lt_300 latest_lag;
                health_fields :=
                  [("lag_seconds", JNum latest_lag);
                   ("threshold_seconds", JNum (PyInt 300))] |}
     | [] =>
         ret {| healthy := false;
                health_fields :=
                  [("error", JStr "No replication lag metrics available")] |}
     end)
    (fun e => ret (unhealthy_error e)).

Definition check_route53_health : M HealthRecord :=
  try_except
    (ret {| healthy := true; health_fields := [("status", JStr "active")] |})
    (fun e => ret (unhealthy_error e)).

(** The dict [health_status] with a given ['overall_status']. *)
Definition health_status (primary_db dr_replica replication_lag route53_health : HealthRecord)
    (overall_status : string) : json :=
  JObj [("primary_db", health_json primary_db);
        ("dr_replica", health_json dr_replica);
        ("replication_lag", health_json replication_lag);
        ("route53_health", health_json route53_health);
        ("overall_status", JStr overall_status)].

(** [all(l)] on a list of bools. *)
Definition py_all (l : list bool) : bool := forallb (fun b => b) l.

(** [perform_health_check], with the four sub-check methods it calls on
    [self] as parameters. *)
Definition perform_health_check_with (check_primary check_replica check_lag check_dns : M HealthRecord)
    : M Response :=
  primary_db <- check_primary ;;
  dr_replica <- check_replica ;;
  replication_lag <- check_lag ;;
  route53_health <- check_dns ;;
  let overall_status :=
    if negb (py_all [healthy primary_db; healthy dr_replica; healthy replication_lag])
    then "unhealthy" else "healthy" in
  let status := health_status primary_db dr_replica replication_lag route53_health overall_status in
  (if String.eqb overall_status "unhealthy"
   then send_notification ("DR Health Check Failed: " +:+ json_dumps_indent2 cfg status) "WARNING"
   else ret tt) ;;;
  ret {| statusCode := 200; body := json_dumps cfg status |}.

Definition perform_health_check : M Response :=
  perform_health_check_with
    check_primary_database check_dr_replica check_replication_lag check_route53_health.

(** [wait_for_db_status]: the loop [while wait_time < max_wait], one
    call of [wait_loop] per test of the condition. *)
Equations? wait_loop (rds_client : RdsClient) (db_identifier target_status : string)
    (max_wait wait_time : Z) : M bool by wf (Z.to_nat (max_wait - wait_time)) lt :=
  wait_loop rds_client db_identifier target_status max_wait wait_time
    with Z_lt_dec wait_time max_wait := {
    | left _ =>
        response <- describe rds_client (Some db_identifier) ;;
        db_instance <- first_item (DBInstances response) ;;
        current_status <- getitem "DBInstanceStatus" (DBInstanceStatus db_instance) ;;
        if String.eqb current_status target_status then ret true
        else
          sleep 30 ;;;
          wait_loop rds_client db_identifier target_status max_wait (wait_time + 30)
    | right _ =>
        raise (Exception_ ("Database " +:+ db_identifier +:+ " did not reach "
                           +:+ target_status +:+ " status within "
                           +:+ fmt_int max_wait +:+ " seconds")) }.
Proof. lia. Qed.

Definition wait_for_db_status (db_identifier target_status : string) (rds_client : RdsClient)
    (max_wait : Z) : M bool :=
  wait_loop rds_client db_identifier target_status max_wait 0.

(** The default of the parameter [max_wait]. *)
Definition default_max_wait : Z := 1800.

Definition procedure_body (message : string) (steps_completed : list string) : string :=
  json_dumps cfg
    (JObj [("message", JStr message);
           ("steps_completed", JList (map JStr steps_completed));
           ("timestamp", JStr (timestamp cfg))]).

(** The [try] block of [initiate_failover], after [steps_completed = []]. *)
Definition initiate_failover_try : ML Response :=
  lift (send_notification "Starting DR failover procedure" "INFO") ;;;
  promote_response <- lift (promote rds_dr (Some dr_replica_id)) ;;
  append_step "promoted_replica" ;;;
  lift (wait_for_db_status dr_replica_id "available" rds_dr default_max_wait) ;;;
  append_step "replica_promotion_complete" ;;;
  append_step "dns_updated" ;;;
  steps_completed <- get_steps ;;
  lift (send_notification
          ("DR Failover completed successfully. Steps: " +:+ fmt_str_list steps_completed)
          "SUCCESS") ;;;
  ret {| statusCode := 200;
         body := procedure_body "Failover initiated successfully" steps_completed |}.

(** Its [except] clause. *)
Definition initiate_failover_except (steps_completed : list string) (e : exn) : M Response :=
  let error_msg :=
    "Failover failed at step " +:+ fmt_nat (length steps_completed) +:+ ": " +:+ exn_str e in
  send_notification error_msg "ERROR" ;;;
  raise e.

Definition initiate_failover : M Response :=
  try_steps initiate_failover_try initiate_failover_except.

(** The [try] block of [initiate_failback], after [steps_completed = []]. *)
Definition initiate_failback_try : ML Response :=
  lift (send_notification "Starting failback procedure" "INFO") ;;;
  primary_health <- lift check_primary_database ;;
  (if negb (healthy primary_health)
   then raise (Exception_ "Primary database is not healthy, cannot failback")
   else ret tt) ;;;
  append_step "primary_health_verified" ;;;
  append_step "dns_reverted" ;;;
  steps_completed <- get_steps ;;
  lift (send_notification
          ("Failback completed successfully. Steps: " +:+ fmt_str_list steps_completed)
          "SUCCESS") ;;;
  ret {| statusCode := 200;
         body := procedure_body "Failback completed successfully" steps_completed |}.

(** Its [except] clause. *)
Definition initiate_failback_except (steps_completed : list string) (e : exn) : M Response :=
  let error_msg := "Failback failed: " +:+ exn_str e in
  send_notification error_msg "ERROR" ;;;
  raise e.

Definition initiate_failback : M Response :=
  try_steps initiate_failback_try initiate_failback_except.

Definition failed_probe (e : exn) : ProbeResult :=
  {| success := false; probe_fields := [("error", JStr (exn_str e))] |}.

(** [test_dr_connectivity], with the [check_dr_replica] method it calls
    on [self] as a parameter. *)
Definition test_dr_connectivity_with (check_replica : M HealthRecord) : M ProbeResult :=
  try_except
    (dr_health <- check_replica ;;
     ret {| success := healthy dr_health;
            probe_fields := [("details", health_json dr_health)] |})
    (fun e => ret (failed_probe e)).

Definition test_dr_connectivity : M ProbeResult :=
  test_dr_connectivity_with check_dr_replica.

Definition simulate_failover : M ProbeResult :=
  ret {| success := true;
         probe_fields :=
           [("simulated_steps",
             JList [JStr "promote_replica"; JStr "update_dns"; JStr "verify_connectivity"])] |}.

(** [test_monitoring_alerts], with the sending of the test alert as a
    parameter. *)
Definition test_monitoring_alerts_with (send_alert : M unit) : M ProbeResult :=
  try_except
    (send_alert ;;;
     ret {| success := true; probe_fields := [("alert_sent", JBool true)] |})
    (fun e => ret (failed_probe e)).

Definition test_monitoring_alerts : M ProbeResult :=
  test_monitoring_alerts_with (send_notification "DR Test Alert" "TEST").

Definition test_backup_integrity : M ProbeResult :=
  ret {| success := true; probe_fields := [("backups_verified", JBool true)] |}.

(** The dict [test_results]. *)
Definition test_results (connectivity simulation alerts backup : ProbeResult)
    : list (string * ProbeResult) :=
  [("dr_replica_connectivity", connectivity);
   ("failover_simulation", simulation);
   ("monitoring_alerts", alerts);
   ("backup_integrity", backup)].

Definition results_json (results : list (string * ProbeResult)) : json :=
  JObj (map (fun kv => (fst kv, probe_json (snd kv))) results).

(** [test_disaster_recovery], with the four probe methods it calls on
    [self] as parameters. *)
Definition test_disaster_recovery_with
    (connectivity_probe simulation_probe alerts_probe backup_probe : M ProbeResult)
    : M Response :=
  try_except
    (connectivity <- connectivity_probe ;;
     simulation <- simulation_probe ;;
     alerts <- alerts_probe ;;
     backup <- backup_probe ;;
     let results := test_results connectivity simulation alerts backup in
     let overall_success := py_all (map (fun kv => success (snd kv)) results) in
     send_notification
       ("DR Test Results: " +:+ (if overall_success then "PASSED" else "FAILED") +:+ "
Details: " +:+ json_dumps_indent2 cfg (results_json results))
       "INFO" ;;;
     ret {| statusCode := 200;
            body := json_dumps cfg
                      (JObj [("test_results", results_json results);
                             ("overall_success", JBool overall_success);
                             ("timestamp", JStr (timestamp cfg))]) |})
    (fun e =>
       let error_msg := "DR testing failed: " +:+ exn_str e in
       send_notification error_msg "ERROR" ;;;
       raise e).

Definition test_disaster_recovery : M Response :=
  test_disaster_recovery_with
    test_dr_connectivity simulate_failover test_monitoring_alerts test_backup_integrity.

(** [f"{action}"]: a string is itself, another value goes through [str]. *)
Definition fmt_value (v : json) : string :=
  match v with
  | JStr s => s
  | _ => str_value cfg v
  end.

(** [action == tag] for a string literal [tag]. *)
Definition is_tag (action : json) (tag : string) : bool :=
  match action with
  | JStr s => String.eqb s tag
  | _ => false
  end.

(** The body of the [try] of [handler]. *)
Definition dispatch (event : gmap string json) : M Response :=
  let action := default (JStr "health_check") (event !! "action") in
  if is_tag action "health_check" then perform_health_check
  else if is_tag action "initiate_failover" then initiate_failover
  else if is_tag action "failback" then initiate_failback
  else if is_tag action "test_dr" then test_disaster_recovery
  else raise (ValueError ("Unknown action: " +:+ fmt_value action)).

(** The [except] clause of [handler]. *)
Definition handler_except (e : exn) : M Response :=
  let error_msg := "DR Automation failed: " +:+ exn_str e in
  send_notification error_msg "ERROR" ;;;
  ret {| statusCode := 500;
         body := json_dumps cfg
                   (JObj [("error", JStr error_msg);
                          ("timestamp", JStr (timestamp cfg))]) |}.

Definition handler (event : gmap string json) : M Response :=
  try_except (dispatch event) handler_except.

End Automation.

(** ** Reading a trace *)

(** The events a run added to the trace it started from. *)
Definition events_since (t t' : Trace) : Trace := drop (length t) t'.

(** A notification of a given severity: a publish call whose subject is
    the one [send_notification] builds for that severity. *)
Definition is_notification (cfg : Config) (severity : string) (ev : Event) : bool :=
  match ev with
  | SnsPublish p => String.eqb (Subject p) (subject_of cfg severity)
  | _ => false
  end.

Definition count_notifications (cfg : Config) (severity : string) (evs : Trace) : nat :=
  length (List.filter (is_notification cfg severity) evs).

(** Calls that change nothing in the infrastructure and touch neither the
    replica nor DNS: the notification sink, the local print of
    [send_notification], and a describe call on the primary database. *)
Definition notification_or_primary_describe (ev : Event) : Prop :=
  match ev with
  | SnsPublish _ | Print _ | DescribeDBInstances rds_primary _ => True
  | _ => False
  end.

(** Seconds slept in a list of events, and the status polls in it. *)
Definition slept (evs : Trace) : Z :=
  fold_right (fun ev acc => match ev with Sleep s => s + acc | _ => acc end) 0 evs.

Definition polls (evs : Trace) : nat :=
  length (List.filter (fun ev => match ev with DescribeDBInstances _ _ => true | _ => false end) evs).

(** What [send_notification] adds to the trace [t]. *)
Definition notification_events (cfg : Config) (env : Env) (t : Trace)
    (message severity : string) : Trace :=
  SnsPublish (publication cfg message severity) ::
  match sns_publish env t (publication cfg message severity) with
  | inl e => [Print ("Failed to send notification: " +:+ exn_str e)]
  | inr _ => []
  end.

(** The status a poll of [describe_db_instances] observes, if any. *)
Definition observed_status (env : Env) (client : RdsClient) (t : Trace) (id : string)
    : option string :=
  match describe_db_instances env client t (Some id) with
  | inr response =>
      match DBInstances response with
      | db_instance :: _ => DBInstanceStatus db_instance
      | [] => None
      end
  | inl _ => None
  end.

(** The trace after [k] polls that did not see the target: each is a
    describe call followed by a sleep of 30 seconds. *)
Definition poll_round (client : RdsClient) (id : string) : Trace :=
  [DescribeDBInstances client (Some id); Sleep 30].

Fixpoint poll_rounds (client : RdsClient) (id : string) (k : nat) : Trace :=
  match k with
  | O => []
  | S k' => poll_round client id ++ poll_rounds client id k'
  end.

(** What the poll loop may add to the trace: a describe call for the
    polled instance, or a sleep of exactly 30 seconds. *)
Definition poll_event (client : RdsClient) (id : string) (ev : Event) : Prop :=
  match ev with
  | DescribeDBInstances c i => c = client /\ i = Some id
  | Sleep seconds => seconds = 30
  | _ => False
  end.

(** How many times the loop of [wait_for_db_status] can poll: the
    number of multiples of 30 below [max_wait - wait_time]. *)
Definition remaining_polls (max_wait wait_time : Z) : nat :=
  Z.to_nat ((max_wait - wait_time + 29) / 30).

(** The exception [wait_for_db_status] raises when the loop ends. *)
Definition timeout_exception (db_identifier target_status : string) (max_wait : Z) : exn :=
  Exception_ ("Database " +:+ db_identifier +:+ " did not reach "
              +:+ target_status +:+ " status within "
              +:+ fmt_int max_wait +:+ " seconds").

(** How a run of the loop that may poll [n] times ends: a poll sees the
    target, a poll fails (the call raises or the response lacks the
    status), or all [n] polls saw another status. *)
Inductive wait_outcome (env : Env) (client : RdsClient) (id target : string) (max_wait : Z)
    (t : Trace) (n : nat) : Trace * (exn + bool) -> Prop :=
| wait_reached (k : nat) :
    (k < n)%nat ->
    (forall j, (j < k)%nat ->
       exists s, observed_status env client (t ++ poll_rounds client id j) id = Some s
                 /\ s <> target) ->
    observed_status env client (t ++ poll_rounds client id k) id = Some target ->
    wait_outcome env client id target max_wait t n
      (t ++ poll_rounds client id k ++ [DescribeDBInstances client (Some id)], inr true)
| wait_broken (k : nat) (e : exn) :
    (k < n)%nat ->
    observed_status env client (t ++ poll_rounds client id k) id = None ->
    wait_outcome env client id target max_wait t n
      (t ++ poll_rounds client id k ++ [DescribeDBInstances client (Some id)], inl e)
| wait_timed_out :
    (forall j, (j < n)%nat ->
       exists s, observed_status env client (t ++ poll_rounds client id j) id = Some s
                 /\ s <> target) ->
    wait_outcome env client id target max_wait t n
      (t ++ poll_rounds client id n, inl (timeout_exception id target max_wait)).

(** "Strictly below 300" for a Python number. *)
Definition below_300 (x : pynum) : Prop :=
  match x with
  | PyInt z => z < 300
  | PyFloat f => PrimFloat.ltb f 300%float = true
  end.

(** ** The claims as the specification words them *)

(** The event [{'action': tag}] and the action the handler reads. *)
Definition event_of_action (tag : string) : gmap string json := {[ "action" := JStr tag ]}.

(** The procedure the handler runs for an action value, if it runs one. *)
Definition procedure_of (cfg : Config) (env : Env) (action : json) : option (M Response) :=
  match action with
  | JStr tag =>
      if String.eqb tag "health_check" then Some (perform_health_check cfg env)
      else if String.eqb tag "initiate_failover" then Some (initiate_failover cfg env)
      else if String.eqb tag "failback" then Some (initiate_failback cfg env)
      else if String.eqb tag "test_dr" then Some (test_disaster_recovery cfg env)
      else None
  | _ => None
  end.

(** The result of the handler for an action it does not know. *)
Definition unknown_action_response (cfg : Config) (action : json) : Response :=
  {| statusCode := 500;
     body := json_dumps cfg
               (JObj [("error", JStr ("DR Automation failed: Unknown action: "
                                      +:+ fmt_value cfg action));
                      ("timestamp", JStr (timestamp cfg))]) |}.

(** The specification's table of action tags: it writes [failover] for
    the failover procedure. *)
Definition spec_procedure_of (cfg : Config) (env : Env) (tag : string) : option (M Response) :=
  if String.eqb tag "health_check" then Some (perform_health_check cfg env)
  else if String.eqb tag "failover" then Some (initiate_failover cfg env)
  else if String.eqb tag "failback" then Some (initiate_failback cfg env)
  else if String.eqb tag "test_dr" then Some (test_disaster_recovery cfg env)
  else None.

(** The dispatch as the specification states it: a tag of its table runs
    the procedure once under the handler's catch-all, any other string
    gives a status-500 result with no collaborator call, that is, with
    the trace as it was. *)
Definition spec_dispatch (cfg : Config) (env : Env) : Prop :=
  forall (event : gmap string json) (tag : string) (t : Trace),
    event !! "action" = Some (JStr tag) ->
    match spec_procedure_of cfg env tag with
    | Some procedure =>
        handler cfg env event t = try_except procedure (handler_except cfg env) t
    | None =>
        exists response,
          handler cfg env event t = (t, inr response) /\ statusCode response = 500
    end.


(** ** Sample configuration and collaborators *)

Definition dquote : string := String (Ascii.ascii_of_nat 34) EmptyString.

(** A plain rendering of a value, standing in for [json.dumps]. *)
Fixpoint render (j : json) : string :=
  match j with
  | JNull => "null"
  | JBool true => "true"
  | JBool false => "false"
  | JNum (PyInt z) => fmt_int z
  | JNum (PyFloat _) => "<float>"
  | JStr s => dquote +:+ s +:+ dquote
  | JList l =>
      "[" +:+
      (fix items (l : list json) : string :=
         match l with
         | [] => ""
         | [x] => render x
         | x :: rest => render x +:+ ", " +:+ items rest
         end) l +:+ "]"
  | JObj kv =>
      "{" +:+
      (fix entries (kv : list (string * json)) : string :=
         match kv with
         | [] => ""
         | [(k, v)] => dquote +:+ k +:+ dquote +:+ ": " +:+ render v
         | (k, v) :: rest =>
             dquote +:+ k +:+ dquote +:+ ": " +:+ render v +:+ ", " +:+ entries rest
         end) kv +:+ "}"
  end.

Definition sample_config : Config :=
  {| ENVIRONMENT := "production";
     DB_IDENTIFIER := Some "mobile-db";
     SNS_TOPIC_ARN := Some "arn:aws:sns:us-east-1:000000000000:dr-alerts";
     timestamp := "2024-01-01T00:00:00+00:00";
     json_dumps := render;
     json_dumps_indent2 := render;
     str_value := render |}.

Definition instance_with_status (status : string) : DBInstance :=
  {| DBInstanceStatus := Some status;
     Endpoint := Some {| Address := Some "db.example.internal" |};
     MultiAZ := Some true;
     ReadReplicaSourceDBInstanceIdentifier := Some "mobile-db" |}.

(** Describe calls on the replica client made so far. *)
Definition replica_polls (t : Trace) : nat :=
  length (List.filter
            (fun ev => match ev with DescribeDBInstances rds_dr _ => true | _ => false end) t).

(** Collaborators that always answer: the primary reports
    [primary_status], the replica reports [replica_status n] at its
    [n]-th describe call, promotion answers [promotion], the metrics
    hold [datapoints], and publishing succeeds. *)
Definition sample_env (primary_status : string) (replica_status : nat -> string)
    (promotion : exn + unit) (datapoints : list Datapoint) : Env :=
  {| describe_db_instances := fun client t _ =>
       match client with
       | rds_primary => inr {| DBInstances := [instance_with_status primary_status] |}
       | rds_dr =>
           inr {| DBInstances := [instance_with_status (replica_status (replica_polls t))] |}
       end;
     promote_read_replica := fun _ _ _ => promotion;
     cloudwatch_get_metric_statistics := fun _ _ => inr {| Datapoints := datapoints |};
     sns_publish := fun _ _ => inr tt |}.

Definition lag (average : pynum) : list Datapoint := [{| Average := Some average |}].

(** Everything in order. *)
Definition env_healthy : Env :=
  sample_env "available" (fun _ => "available") (inr tt) (lag (PyFloat 12.5)).

(** The promotion call raises. *)
Definition promotion_error : exn :=
  Raise "ClientError" "An error occurred (InvalidDBInstanceState) when calling the PromoteReadReplica operation".
Definition env_promotion_fails : Env :=
  sample_env "available" (fun _ => "available") (inl promotion_error) (lag (PyFloat 12.5)).

(** The replica reports "modifying" at the first poll and "available"
    afterwards. *)
Definition env_modifying_then_available : Env :=
  sample_env "stopped" (fun n => match n with O => "modifying" | _ => "available" end)
    (inr tt) (lag (PyFloat 12.5)).

(** The primary database is down. *)
Definition env_primary_down : Env :=
  sample_env "stopped" (fun _ => "available") (inr tt) (lag (PyFloat 12.5)).

(** The replica never leaves "modifying". *)
Definition env_never_available : Env :=
  sample_env "stopped" (fun _ => "modifying") (inr tt) (lag (PyFloat 12.5)).

(** ** Kinds of calls *)

Definition is_promotion (ev : Event) : bool :=
  match ev with PromoteReadReplica _ _ => true | _ => false end.
Definition is_dns_call (ev : Event) : bool :=
  match ev with Route53 _ => true | _ => false end.
Definition is_sleep (ev : Event) : bool :=
  match ev with Sleep _ => true | _ => false end.
Definition is_publish (ev : Event) : bool :=
  match ev with SnsPublish _ => true | _ => false end.

Definition count_events (kind : Event -> bool) (evs : Trace) : nat :=
  length (List.filter kind evs).

(** A kind of call that is none of those the read-only paths make:
    describe calls, the metrics query, publishing and printing. *)
Definition beyond_reads (kind : Event -> bool) : Prop :=
  (forall client id, kind (DescribeDBInstances client id) = false)
  /\ (forall q, kind (CloudwatchGetMetricStatistics q) = false)
  /\ (forall p, kind (SnsPublish p) = false)
  /\ (forall line, kind (Print line) = false).


(** The record of a describe-based sub-check that went through. *)
Definition primary_record (db_instance : DBInstance) (status : string) (multi_az : bool)
    : HealthRecord :=
  {| healthy := String.eqb status "available";
     health_fields :=
       [("status", JStr status);
        ("endpoint", JOptStr (endpoint_address db_instance));
        ("multi_az", JBool multi_az)] |}.

Definition replica_record (db_instance : DBInstance) (status : string) : HealthRecord :=
  {| healthy := String.eqb status "available";
     health_fields :=
       [("status", JStr status);
        ("endpoint", JOptStr (endpoint_address db_instance));
        ("read_replica_source",
         JOptStr (ReadReplicaSourceDBInstanceIdentifier db_instance))] |}.

(** The records of the three probes of the DR test that do not depend on
    a collaborator's answer. *)
Definition simulation_record : ProbeResult :=
  {| success := true;
     probe_fields :=
       [("simulated_steps",
         JList [JStr "promote_replica"; JStr "update_dns"; JStr "verify_connectivity"])] |}.
Definition alert_record : ProbeResult :=
  {| success := true; probe_fields := [("alert_sent", JBool true)] |}.
Definition backup_record : ProbeResult :=
  {| success := true; probe_fields := [("backups_verified", JBool true)] |}.

(** ** Basic facts *)

Section Facts.

Context (cfg : Config) (env : Env).

Lemma events_since_app (t evs : Trace) : events_since t (t ++ evs) = evs.
Proof. unfold events_since. apply drop_app_length. Qed.

Lemma send_notification_run (message severity : string) (t : Trace) :
  send_notification cfg env message severity t =
  (t ++ notification_events cfg env t message severity, inr tt).
Proof.
  unfold send_notification, notification_events, try_except, call.
  destruct (sns_publish env t (publication cfg message severity)) as [e | []];
    simpl; [rewrite <- app_assoc|]; reflexivity.
Qed.

Lemma num_lt_300_below (x : pynum) : num_lt_300 x = true <-> below_300 x.
Proof.
  destruct x as [z | f]; simpl; [apply Z.ltb_lt | reflexivity].
Qed.

Lemma check_primary_database_run (t : Trace) :
  exists h, check_primary_database cfg env t =
            (t ++ [DescribeDBInstances rds_primary (DB_IDENTIFIER cfg)], inr h).
Proof.
  unfold check_primary_database, try_except, bind, describe, call.
  destruct (describe_db_instances env rds_primary t (DB_IDENTIFIER cfg)) as [e | [[| db rest]]];
    simpl; eauto.
  destruct (DBInstanceStatus db); simpl; eauto.
  destruct (MultiAZ db); simpl; eauto.
Qed.

Lemma check_dr_replica_run (t : Trace) :
  exists h, check_dr_replica cfg env t =
            (t ++ [DescribeDBInstances rds_dr (Some (dr_replica_id cfg))], inr h).
Proof.
  unfold check_dr_replica, try_except, bind, describe, call.
  destruct (describe_db_instances env rds_dr t (Some (dr_replica_id cfg))) as [e | [[| db rest]]];
    simpl; eauto.
  destruct (DBInstanceStatus db); simpl; eauto.
Qed.

Lemma check_route53_health_run (t : Trace) :
  check_route53_health t =
  (t, inr {| healthy := true; health_fields := [("status", JStr "active")] |}).
Proof. reflexivity. Qed.

Lemma last_nonempty {A} (a : A) (l : list A) : exists b, last (a :: l) = Some b.
Proof.
  revert a. induction l as [| c l IH]; intros a; simpl; eauto.
Qed.

(** The record [check_replication_lag] builds from the collaborator's
    answer; the lemma below shows it is what the method returns. *)
Lemma check_replication_lag_cases (t : Trace) :
  exists h,
    check_replication_lag cfg env t =
      (t ++ [CloudwatchGetMetricStatistics (replica_lag_query cfg)], inr h) /\
    match cloudwatch_get_metric_statistics env t (replica_lag_query cfg) with
    | inl e => h = unhealthy_error e
    | inr response =>
        match last (Datapoints response) with
        | None =>
            h = {| healthy := false;
                   health_fields :=
                     [("error", JStr "No replication lag metrics available")] |}
        | Some datapoint =>
            match Average datapoint with
            | None => h = unhealthy_error (KeyError "Average")
            | Some latest_lag =>
                h = {| healthy := num_lt_300 latest_lag;
                       health_fields :=
                         [("lag_seconds", JNum latest_lag);
                          ("threshold_seconds", JNum (PyInt 300))] |}
            end
        end
    end.
Proof.
  unfold check_replication_lag, try_except, bind, call.
  destruct (cloudwatch_get_metric_statistics env t (replica_lag_query cfg))
    as [e | [dps]]; simpl; [eauto |].
  destruct dps as [| dp dps]; [simpl; eauto |].
  unfold last_item.
  destruct (last_nonempty dp dps) as [b Hb]. rewrite Hb. simpl.
  destruct (Average b); simpl; eauto.
Qed.

(** *** The poll loop *)

Lemma wait_loop_done (client : RdsClient) (id target : string) (max_wait wait_time : Z)
    (t : Trace) :
  ~ wait_time < max_wait ->
  wait_loop env client id target max_wait wait_time t =
  (t, inl (timeout_exception id target max_wait)).
Proof.
  intros Hge. rewrite wait_loop_equation_1.
  destruct (Z_lt_dec wait_time max_wait) as [Hlt | Hge']; [contradiction | reflexivity].
Qed.

Lemma wait_loop_poll (client : RdsClient) (id target : string) (max_wait wait_time : Z)
    (t : Trace) :
  wait_time < max_wait ->
  match observed_status env client t id with
  | Some s =>
      wait_loop env client id target max_wait wait_time t =
      if String.eqb s target
      then (t ++ [DescribeDBInstances client (Some id)], inr true)
      else wait_loop env client id target max_wait (wait_time + 30)
             (t ++ poll_round client id)
  | None =>
      exists e, wait_loop env client id target max_wait wait_time t =
                (t ++ [DescribeDBInstances client (Some id)], inl e)
  end.
Proof.
  intros Hlt. rewrite wait_loop_equation_1.
  destruct (Z_lt_dec wait_time max_wait) as [Hlt' | Hge]; [| contradiction].
  rewrite wait_loop_clause_1_equation_1.
  unfold observed_status, bind, describe, call, sleep.
  destruct (describe_db_instances env client t (Some id)) as [e | [[| db rest]]];
    simpl; eauto.
  destruct (DBInstanceStatus db) as [s |]; simpl; eauto.
  destruct (String.eqb s target); [reflexivity |].
  unfold poll_round. rewrite <- app_assoc. reflexivity.
Qed.

Lemma remaining_polls_done (max_wait wait_time : Z) :
  ~ wait_time < max_wait -> remaining_polls max_wait wait_time = O.
Proof.
  intros Hge. unfold remaining_polls.
  assert ((max_wait - wait_time + 29) / 30 < 1); [| lia].
  apply Z.div_lt_upper_bound; lia.
Qed.

Lemma remaining_polls_step (max_wait wait_time : Z) :
  wait_time < max_wait ->
  remaining_polls max_wait wait_time = S (remaining_polls max_wait (wait_time + 30)).
Proof.
  intros Hlt. unfold remaining_polls.
  replace (max_wait - wait_time + 29) with ((max_wait - (wait_time + 30) + 29) + 1 * 30) by lia.
  rewrite Z.div_add by lia.
  assert (0 <= (max_wait - (wait_time + 30) + 29) / 30).
  { apply Z.div_pos; lia. }
  lia.
Qed.

Lemma slept_app (evs evs' : Trace) : slept (evs ++ evs') = slept evs + slept evs'.
Proof.
  induction evs as [| ev evs IH]; [reflexivity |].
  simpl. destruct ev; simpl; lia.
Qed.

Lemma slept_poll_rounds (client : RdsClient) (id : string) (k : nat) :
  slept (poll_rounds client id k) = 30 * Z.of_nat k.
Proof.
  induction k as [| k IH]; [reflexivity |].
  change (slept (poll_rounds client id (S k)))
    with (30 + slept (poll_rounds client id k)).
  lia.
Qed.

Lemma polls_app (evs evs' : Trace) : polls (evs ++ evs') = (polls evs + polls evs')%nat.
Proof.
  unfold polls. rewrite List.filter_app, length_app. reflexivity.
Qed.

Lemma polls_poll_rounds (client : RdsClient) (id : string) (k : nat) :
  polls (poll_rounds client id k) = k.
Proof.
  induction k as [| k IH]; [reflexivity |].
  change (polls (poll_rounds client id (S k)))
    with (S (polls (poll_rounds client id k))).
  lia.
Qed.

Lemma poll_rounds_events (client : RdsClient) (id : string) (k : nat) :
  Forall (poll_event client id) (poll_rounds client id k).
Proof.
  induction k as [| k IH]; [constructor |].
  change (poll_rounds client id (S k))
    with (poll_round client id ++ poll_rounds client id k).
  apply Forall_app. split; [| exact IH].
  repeat constructor.
Qed.

(** One more round in front of a run. *)
Lemma wait_outcome_shift (client : RdsClient) (id target : string) (max_wait : Z)
    (t : Trace) (n : nat) (s : string) (r : Trace * (exn + bool)) :
  observed_status env client t id = Some s ->
  s <> target ->
  wait_outcome env client id target max_wait (t ++ poll_round client id) n r ->
  wait_outcome env client id target max_wait t (S n) r.
Proof.
  intros Hobs Hne Hout.
  assert (Hearlier : forall k,
    (forall j, (j < k)%nat ->
       exists s', observed_status env client
                    ((t ++ poll_round client id) ++ poll_rounds client id j) id = Some s'
                  /\ s' <> target) ->
    forall j, (j < S k)%nat ->
       exists s', observed_status env client (t ++ poll_rounds client id j) id = Some s'
                  /\ s' <> target).
  { intros k Hk [| j] Hj.
    - simpl. rewrite app_nil_r. eauto.
    - specialize (Hk j ltac:(lia)). rewrite <- app_assoc in Hk. exact Hk. }
  destruct Hout as [k Hk Hbefore Hseen | k e Hk Hseen | Hnone].
  - rewrite <- app_assoc, (app_assoc (poll_round client id)).
    apply (wait_reached env client id target max_wait t (S n) (S k));
      [lia | exact (Hearlier k Hbefore) |].
    simpl. rewrite <- app_assoc in Hseen. exact Hseen.
  - rewrite <- app_assoc, (app_assoc (poll_round client id)).
    apply (wait_broken env client id target max_wait t (S n) (S k)); [lia |].
    simpl. rewrite <- app_assoc in Hseen. exact Hseen.
  - rewrite <- app_assoc.
    apply (wait_timed_out env client id target max_wait t (S n)).
    exact (Hearlier n Hnone).
Qed.

Lemma wait_loop_outcome (client : RdsClient) (id target : string) (max_wait : Z) (n : nat) :
  forall (wait_time : Z) (t : Trace),
    n = remaining_polls max_wait wait_time ->
    wait_outcome env client id target max_wait t n
      (wait_loop env client id target max_wait wait_time t).
Proof.
  induction n as [| n IH]; intros wait_time t Hn;
    destruct (Z_lt_dec wait_time max_wait) as [Hlt | Hge].
  - rewrite (remaining_polls_step _ _ Hlt) in Hn. discriminate.
  - rewrite (wait_loop_done _ _ _ _ _ _ Hge).
    rewrite <- (app_nil_r t) at 2.
    apply (wait_timed_out env client id target max_wait t O). intros j Hj. lia.
  - pose proof (wait_loop_poll client id target max_wait wait_time t Hlt) as Hpoll.
    destruct (observed_status env client t id) as [s |] eqn:Hobs.
    + rewrite Hpoll. destruct (String.eqb s target) eqn:Heq.
      * apply String.eqb_eq in Heq. subst s.
        apply (wait_reached env client id target max_wait t (S n) O); [lia | |].
        -- intros j Hj. lia.
        -- simpl. rewrite app_nil_r. exact Hobs.
      * apply String.eqb_neq in Heq.
        rewrite (remaining_polls_step _ _ Hlt) in Hn. injection Hn as Hn.
        apply (wait_outcome_shift client id target max_wait t n s); auto.
    + destruct Hpoll as [e He]. rewrite He.
      apply (wait_broken env client id target max_wait t (S n) O e); [lia |].
      simpl. rewrite app_nil_r. exact Hobs.
  - rewrite (remaining_polls_done _ _ Hge) in Hn. discriminate.
Qed.

(** *** Failover and failback, step by step *)

Lemma initiate_failover_run (t : Trace) :
  let id := dr_replica_id cfg in
  let t1 := t ++ notification_events cfg env t "Starting DR failover procedure" "INFO" in
  let t2 := t1 ++ [PromoteReadReplica rds_dr (Some id)] in
  initiate_failover cfg env t =
  match promote_read_replica env rds_dr t1 (Some id) with
  | inl e =>
      (t2 ++ notification_events cfg env t2
               ("Failover failed at step 0: " +:+ exn_str e) "ERROR",
       inl e)
  | inr _ =>
      match wait_for_db_status env id "available" rds_dr default_max_wait t2 with
      | (t3, inl e) =>
          (t3 ++ notification_events cfg env t3
                   ("Failover failed at step 1: " +:+ exn_str e) "ERROR",
           inl e)
      | (t3, inr _) =>
          (t3 ++ notification_events cfg env t3
                   "DR Failover completed successfully. Steps: ['promoted_replica', 'replica_promotion_complete', 'dns_updated']"
                   "SUCCESS",
           inr {| statusCode := 200;
                  body := procedure_body cfg "Failover initiated successfully"
                            ["promoted_replica"; "replica_promotion_complete"; "dns_updated"] |})
      end
  end.
Proof.
  cbv zeta.
  unfold initiate_failover, initiate_failover_try, initiate_failover_except,
    try_steps, bind, lift, append_step, get_steps, promote, call, ret.
  rewrite send_notification_run.
  destruct (promote_read_replica env rds_dr _ (Some (dr_replica_id cfg))) as [e | u].
  - unfold raise. rewrite send_notification_run. reflexivity.
  - destruct (wait_for_db_status env (dr_replica_id cfg) "available" rds_dr default_max_wait _)
      as [t3 [e | b]].
    + unfold raise. rewrite send_notification_run. reflexivity.
    + cbv beta iota. rewrite send_notification_run. reflexivity.
Qed.

Lemma initiate_failback_run (t : Trace) :
  let t1 := t ++ notification_events cfg env t "Starting failback procedure" "INFO" in
  let t2 := t1 ++ [DescribeDBInstances rds_primary (DB_IDENTIFIER cfg)] in
  exists h,
    check_primary_database cfg env t1 = (t2, inr h) /\
    initiate_failback cfg env t =
    if healthy h
    then
      (t2 ++ notification_events cfg env t2
               "Failback completed successfully. Steps: ['primary_health_verified', 'dns_reverted']"
               "SUCCESS",
       inr {| statusCode := 200;
              body := procedure_body cfg "Failback completed successfully"
                        ["primary_health_verified"; "dns_reverted"] |})
    else
      (t2 ++ notification_events cfg env t2
               "Failback failed: Primary database is not healthy, cannot failback" "ERROR",
       inl (Exception_ "Primary database is not healthy, cannot failback")).
Proof.
  cbv zeta.
  destruct (check_primary_database_run
              (t ++ notification_events cfg env t "Starting failback procedure" "INFO"))
    as [h Hh].
  exists h. split; [exact Hh |].
  unfold initiate_failback, initiate_failback_try, initiate_failback_except,
    try_steps, bind, lift, append_step, get_steps, raise, ret.
  rewrite send_notification_run, Hh.
  destruct (healthy h); cbn [negb]; cbv beta iota;
    rewrite send_notification_run; reflexivity.
Qed.

(** *** Health check, DR test and handler *)

Lemma perform_health_check_with_run
    (check_primary check_replica check_lag check_dns : M HealthRecord)
    (t t1 t2 t3 t4 : Trace) (p d l r : HealthRecord) :
  check_primary t = (t1, inr p) ->
  check_replica t1 = (t2, inr d) ->
  check_lag t2 = (t3, inr l) ->
  check_dns t3 = (t4, inr r) ->
  perform_health_check_with cfg env check_primary check_replica check_lag check_dns t =
  if healthy p && healthy d && healthy l
  then (t4, inr {| statusCode := 200;
                   body := json_dumps cfg (health_status p d l r "healthy") |})
  else (t4 ++ notification_events cfg env t4
                ("DR Health Check Failed: "
                 +:+ json_dumps_indent2 cfg (health_status p d l r "unhealthy"))
                "WARNING",
        inr {| statusCode := 200;
               body := json_dumps cfg (health_status p d l r "unhealthy") |}).
Proof.
  intros Hp Hd Hl Hr.
  unfold perform_health_check_with, bind. rewrite Hp, Hd, Hl, Hr.
  unfold py_all, forallb.
  destruct (healthy p), (healthy d), (healthy l); cbn [andb negb];
    try (cbn [String.eqb Ascii.eqb Bool.eqb]; unfold ret; reflexivity);
    cbn [String.eqb Ascii.eqb Bool.eqb]; rewrite send_notification_run; reflexivity.
Qed.

Lemma perform_health_check_returns (t : Trace) :
  exists t' response,
    perform_health_check cfg env t = (t', inr response) /\ statusCode response = 200.
Proof.
  destruct (check_primary_database_run t) as [p Hp].
  destruct (check_dr_replica_run
              (t ++ [DescribeDBInstances rds_primary (DB_IDENTIFIER cfg)])) as [d Hd].
  destruct (check_replication_lag_cases
              ((t ++ [DescribeDBInstances rds_primary (DB_IDENTIFIER cfg)])
                 ++ [DescribeDBInstances rds_dr (Some (dr_replica_id cfg))])) as [l [Hl _]].
  unfold perform_health_check.
  rewrite (perform_health_check_with_run _ _ _ _ _ _ _ _ _ _ _ _ _ Hp Hd Hl
             (check_route53_health_run _)).
  destruct (healthy p && healthy d && healthy l); eauto.
Qed.

(** A probe with its own [try] block returns a record whatever the call
    inside does. *)
Lemma test_dr_connectivity_with_run (check_replica : M HealthRecord) (t : Trace) :
  test_dr_connectivity_with check_replica t =
  match check_replica t with
  | (t', inr dr_health) =>
      (t', inr {| success := healthy dr_health;
                  probe_fields := [("details", health_json dr_health)] |})
  | (t', inl e) => (t', inr (failed_probe e))
  end.
Proof.
  unfold test_dr_connectivity_with, try_except, bind.
  destruct (check_replica t) as [t' [e | h]]; reflexivity.
Qed.

Lemma test_monitoring_alerts_with_run (send_alert : M unit) (t : Trace) :
  test_monitoring_alerts_with send_alert t =
  match send_alert t with
  | (t', inr _) =>
      (t', inr {| success := true; probe_fields := [("alert_sent", JBool true)] |})
  | (t', inl e) => (t', inr (failed_probe e))
  end.
Proof.
  unfold test_monitoring_alerts_with, try_except, bind.
  destruct (send_alert t) as [t' [e | u]]; reflexivity.
Qed.

Lemma test_disaster_recovery_with_run
    (connectivity_probe simulation_probe alerts_probe backup_probe : M ProbeResult)
    (t t1 t2 t3 t4 : Trace) (c s a b : ProbeResult) :
  connectivity_probe t = (t1, inr c) ->
  simulation_probe t1 = (t2, inr s) ->
  alerts_probe t2 = (t3, inr a) ->
  backup_probe t3 = (t4, inr b) ->
  let overall_success := success c && success s && success a && success b in
  test_disaster_recovery_with cfg env
    connectivity_probe simulation_probe alerts_probe backup_probe t =
  (t4 ++ notification_events cfg env t4
           ("DR Test Results: " +:+ (if overall_success then "PASSED" else "FAILED") +:+ "
Details: " +:+ json_dumps_indent2 cfg (results_json (test_results c s a b)))
           "INFO",
   inr {| statusCode := 200;
          body := json_dumps cfg
                    (JObj [("test_results", results_json (test_results c s a b));
                           ("overall_success", JBool overall_success);
                           ("timestamp", JStr (timestamp cfg))]) |}).
Proof.
  intros Hc Hs Ha Hb overall_success.
  unfold test_disaster_recovery_with, try_except, bind.
  rewrite Hc, Hs, Ha, Hb, send_notification_run.
  assert (Hall : py_all (map (fun kv => success (snd kv)) (test_results c s a b))
                 = overall_success).
  { unfold overall_success, py_all. simpl.
    destruct (success c), (success s), (success a), (success b); reflexivity. }
  rewrite Hall. reflexivity.
Qed.

Lemma handler_except_run (e : exn) (t : Trace) :
  handler_except cfg env e t =
  (t ++ notification_events cfg env t ("DR Automation failed: " +:+ exn_str e) "ERROR",
   inr {| statusCode := 500;
          body := json_dumps cfg
                    (JObj [("error", JStr ("DR Automation failed: " +:+ exn_str e));
                           ("timestamp", JStr (timestamp cfg))]) |}).
Proof.
  unfold handler_except, bind. rewrite send_notification_run. reflexivity.
Qed.

(** *** Counting notifications *)

Lemma count_notifications_app (severity : string) (evs evs' : Trace) :
  count_notifications cfg severity (evs ++ evs') =
  (count_notifications cfg severity evs + count_notifications cfg severity evs')%nat.
Proof.
  unfold count_notifications. rewrite List.filter_app, length_app. reflexivity.
Qed.

Lemma count_notification_events (severity severity' message : string) (t : Trace) :
  count_notifications cfg severity (notification_events cfg env t message severity') =
  if String.eqb (subject_of cfg severity') (subject_of cfg severity) then 1%nat else 0%nat.
Proof.
  unfold count_notifications, notification_events.
  destruct (sns_publish env t (publication cfg message severity')); cbn [List.filter];
    change (is_notification cfg severity (SnsPublish (publication cfg message severity')))
      with (String.eqb (subject_of cfg severity') (subject_of cfg severity));
    destruct (String.eqb (subject_of cfg severity') (subject_of cfg severity)); reflexivity.
Qed.

Lemma count_notification_events_same (severity message : string) (t : Trace) :
  count_notifications cfg severity (notification_events cfg env t message severity) = 1%nat.
Proof.
  rewrite count_notification_events, String.eqb_refl. reflexivity.
Qed.

Lemma count_notifications_poll_rounds (severity : string) (client : RdsClient)
    (id : string) (k : nat) :
  count_notifications cfg severity (poll_rounds client id k) = 0%nat.
Proof.
  induction k as [| k IH]; [reflexivity |].
  change (poll_rounds client id (S k))
    with (poll_round client id ++ poll_rounds client id k).
  rewrite count_notifications_app, IH. reflexivity.
Qed.

Lemma notification_events_harmless (message severity : string) (t : Trace) :
  Forall notification_or_primary_describe (notification_events cfg env t message severity).
Proof.
  unfold notification_events.
  destruct (sns_publish env t (publication cfg message severity));
    repeat constructor.
Qed.

(** *** The state in which a [try] block is left *)


Lemma initiate_failback_try_unhealthy (t t2 : Trace) (h : HealthRecord) :
  check_primary_database cfg env
    (t ++ notification_events cfg env t "Starting failback procedure" "INFO") = (t2, inr h) ->
  healthy h = false ->
  initiate_failback_try cfg env ([], t) =
  (([], t2), inl (Exception_ "Primary database is not healthy, cannot failback")).
Proof.
  intros Hcheck Hh.
  unfold initiate_failback_try, bind, lift.
  rewrite send_notification_run, Hcheck, Hh. reflexivity.
Qed.

(** *** A poll that sees the target *)

Lemma wait_loop_reaches (client : RdsClient) (id target : string) (max_wait : Z) (k : nat) :
  forall (wait_time : Z) (t : Trace),
    wait_time + 30 * Z.of_nat k < max_wait ->
    (forall j, (j < k)%nat ->
       exists s, observed_status env client (t ++ poll_rounds client id j) id = Some s
                 /\ s <> target) ->
    observed_status env client (t ++ poll_rounds client id k) id = Some target ->
    wait_loop env client id target max_wait wait_time t =
    (t ++ poll_rounds client id k ++ [DescribeDBInstances client (Some id)], inr true).
Proof.
  induction k as [| k IH]; intros wait_time t Hbound Hbefore Hseen.
  - simpl in Hseen. rewrite app_nil_r in Hseen.
    pose proof (wait_loop_poll client id target max_wait wait_time t ltac:(lia)) as Hpoll.
    rewrite Hseen, String.eqb_refl in Hpoll. exact Hpoll.
  - destruct (Hbefore O ltac:(lia)) as [s [Hs Hne]].
    simpl in Hs. rewrite app_nil_r in Hs.
    pose proof (wait_loop_poll client id target max_wait wait_time t ltac:(lia)) as Hpoll.
    rewrite Hs in Hpoll. apply String.eqb_neq in Hne. rewrite Hne in Hpoll.
    rewrite Hpoll.
    rewrite (IH (wait_time + 30) (t ++ poll_round client id)).
    + change (poll_rounds client id (S k))
        with (poll_round client id ++ poll_rounds client id k).
      rewrite <- !app_assoc. reflexivity.
    + lia.
    + intros j Hj. specialize (Hbefore (S j) ltac:(lia)).
      rewrite <- app_assoc. exact Hbefore.
    + rewrite <- app_assoc. exact Hseen.
Qed.

End Facts.

(** ** The handler *)

Lemma dispatch_run (cfg : Config) (env : Env) (event : gmap string json) (action : json)
    (t : Trace) :
  event !! "action" = Some action ->
  dispatch cfg env event t =
  match procedure_of cfg env action with
  | Some procedure => procedure t
  | None => (t, inl (ValueError ("Unknown action: " +:+ fmt_value cfg action)))
  end.
Proof.
  intros Hget. unfold dispatch. rewrite Hget. cbn [default from_option id].
  destruct action as [| b | n | tag | l | kv]; try reflexivity.
  unfold procedure_of, is_tag.
  destruct (String.eqb tag "health_check"); [reflexivity |].
  destruct (String.eqb tag "initiate_failover"); [reflexivity |].
  destruct (String.eqb tag "failback"); [reflexivity |].
  destruct (String.eqb tag "test_dr"); reflexivity.
Qed.

Lemma lookup_event_of_action (tag : string) :
  event_of_action tag !! "action" = Some (JStr tag).
Proof. unfold event_of_action. apply lookup_singleton_eq. Qed.


(** C1, as the code has it.  For an event whose action is one of
    health_check, initiate_failover, failback and test_dr, the handler is
    one run of the procedure of that name under its catch-all.  For any
    other action value it returns the status-500 result carrying the
    error "DR Automation failed: Unknown action: ..." and the only
    collaborator it calls is the notification sink, once, with severity
    ERROR: no database, metrics or DNS call is made. *)
Theorem handler_routes_by_action (cfg : Config) (env : Env) (event : gmap string json)
    (action : json) (t : Trace) :
  event !! "action" = Some action ->
  match procedure_of cfg env action with
  | Some procedure =>
      handler cfg env event t = try_except procedure (handler_except cfg env) t
  | None =>
      handler cfg env event t =
      (t ++ notification_events cfg env t
              ("DR Automation failed: Unknown action: " +:+ fmt_value cfg action) "ERROR",
       inr (unknown_action_response cfg action))
      /\ Forall notification_or_primary_describe
           (events_since t (fst (handler cfg env event t)))
      /\ count_notifications cfg "ERROR"
           (events_since t (fst (handler cfg env event t))) = 1%nat
  end.
Proof.
  intros Hget.
  pose proof (dispatch_run cfg env event action t Hget) as Hrun.
  unfold handler, try_except at 1.
  destruct (procedure_of cfg env action) as [procedure |].
  - rewrite Hrun. reflexivity.
  - assert (Hhandler :
      (let (t', r) := dispatch cfg env event t in
       match r with
       | inl e => handler_except cfg env e t'
       | inr a => (t', inr a)
       end) =
      (t ++ notification_events cfg env t
              ("DR Automation failed: Unknown action: " +:+ fmt_value cfg action) "ERROR",
       inr (unknown_action_response cfg action))).
    { rewrite Hrun. rewrite handler_except_run. reflexivity. }
    unfold try_except. rewrite Hhandler. cbn [fst].
    rewrite events_since_app.
    split; [reflexivity |].
    split; [apply notification_events_harmless |].
    apply count_notification_events_same.
Qed.

(** C9.  An event with no 'action' key runs the health check: the
    handler returns what [perform_health_check] returns, a status-200
    result, and not an error. *)
Theorem handler_defaults_to_health_check (cfg : Config) (env : Env)
    (event : gmap string json) (t : Trace) :
  event !! "action" = None ->
  handler cfg env event t = perform_health_check cfg env t
  /\ exists t' response,
       handler cfg env event t = (t', inr response) /\ statusCode response = 200.
Proof.
  intros Hget.
  destruct (perform_health_check_returns cfg env t) as [t' [response [Hrun Hcode]]].
  assert (Hhandler : handler cfg env event t = perform_health_check cfg env t).
  { unfold handler, try_except, dispatch. rewrite Hget.
    cbn [default from_option id is_tag String.eqb Ascii.eqb Bool.eqb].
    rewrite Hrun. reflexivity. }
  split; [exact Hhandler |].
  exists t', response. rewrite Hhandler. auto.
Qed.

(** ** The health check *)

(** C3.  Whatever the four sub-checks return, the health check returns
    status 200; its overall_status is "healthy" exactly when the
    primary-database, replica and replication-lag records are healthy,
    and it is "unhealthy" otherwise; and with any other DNS sub-check
    in place of the given one the overall_status is the same. *)
Theorem health_check_aggregate (cfg : Config) (env : Env)
    (check_primary check_replica check_lag check_dns : M HealthRecord)
    (t t1 t2 t3 t4 : Trace) (p d l r : HealthRecord) :
  check_primary t = (t1, inr p) ->
  check_replica t1 = (t2, inr d) ->
  check_lag t2 = (t3, inr l) ->
  check_dns t3 = (t4, inr r) ->
  exists overall_status,
    (exists t',
       perform_health_check_with cfg env check_primary check_replica check_lag check_dns t =
       (t', inr {| statusCode := 200;
                   body := json_dumps cfg
                     (JObj [("primary_db",
                             JObj (("healthy", JBool (healthy p)) :: health_fields p));
                            ("dr_replica",
                             JObj (("healthy", JBool (healthy d)) :: health_fields d));
                            ("replication_lag",
                             JObj (("healthy", JBool (healthy l)) :: health_fields l));
                            ("route53_health",
                             JObj (("healthy", JBool (healthy r)) :: health_fields r));
                            ("overall_status", JStr overall_status)]) |}))
    /\ (overall_status = "healthy" <->
        healthy p = true /\ healthy d = true /\ healthy l = true)
    /\ (overall_status = "healthy" \/ overall_status = "unhealthy")
    /\ (forall (other_dns : M HealthRecord) (t4' : Trace) (r' : HealthRecord),
          other_dns t3 = (t4', inr r') ->
          exists t'',
            perform_health_check_with cfg env check_primary check_replica check_lag other_dns t =
            (t'', inr {| statusCode := 200;
                         body := json_dumps cfg
                           (JObj [("primary_db",
                                   JObj (("healthy", JBool (healthy p)) :: health_fields p));
                                  ("dr_replica",
                                   JObj (("healthy", JBool (healthy d)) :: health_fields d));
                                  ("replication_lag",
                                   JObj (("healthy", JBool (healthy l)) :: health_fields l));
                                  ("route53_health",
                                   JObj (("healthy", JBool (healthy r')) :: health_fields r'));
                                  ("overall_status", JStr overall_status)]) |})).
Proof.
  intros Hp Hd Hl Hr.
  exists (if healthy p && healthy d && healthy l then "healthy" else "unhealthy").
  split; [| split; [| split]].
  - rewrite (perform_health_check_with_run cfg env _ _ _ _ _ _ _ _ _ _ _ _ _ Hp Hd Hl Hr).
    destruct (healthy p && healthy d && healthy l); eexists; reflexivity.
  - destruct (healthy p), (healthy d), (healthy l); cbn [andb];
      split; try discriminate; intuition discriminate.
  - destruct (healthy p && healthy d && healthy l); auto.
  - intros other_dns t4' r' Hr'.
    rewrite (perform_health_check_with_run cfg env _ _ _ _ _ _ _ _ _ _ _ _ _ Hp Hd Hl Hr').
    destruct (healthy p && healthy d && healthy l); eexists; reflexivity.
Qed.

(** C4.  The replication-lag sub-check always returns a record.  The
    record is healthy exactly when the metrics call answers, the answer
    holds a datapoint, and the average of the last datapoint is strictly
    below 300 (299 is below, 300 is not).  With no datapoint the record
    is unhealthy and carries the error text. *)
Theorem replication_lag_threshold (cfg : Config) (env : Env) (t : Trace) :
  exists h,
    check_replication_lag cfg env t =
      (t ++ [CloudwatchGetMetricStatistics (replica_lag_query cfg)], inr h)
    /\ (healthy h = true <->
        exists response datapoint average,
          cloudwatch_get_metric_statistics env t (replica_lag_query cfg) = inr response
          /\ last (Datapoints response) = Some datapoint
          /\ Average datapoint = Some average
          /\ below_300 average)
    /\ (forall response,
          cloudwatch_get_metric_statistics env t (replica_lag_query cfg) = inr response ->
          Datapoints response = [] ->
          h = {| healthy := false;
                 health_fields :=
                   [("error", JStr "No replication lag metrics available")] |})
    /\ (below_300 (PyInt 299) /\ below_300 (PyFloat 299))
    /\ (num_lt_300 (PyInt 300) = false /\ num_lt_300 (PyFloat 300) = false).
Proof.
  destruct (check_replication_lag_cases cfg env t) as [h [Hrun Hcases]].
  exists h. split; [exact Hrun |].
  split; [| split; [| split]].
  - destruct (cloudwatch_get_metric_statistics env t (replica_lag_query cfg))
      as [e | response].
    { subst h. split; [discriminate |]. intros (? & ? & ? & ? & _). discriminate. }
    destruct (last (Datapoints response)) as [datapoint |] eqn:Hlast.
    2: { subst h. split; [discriminate |].
         intros (r' & dp & av & Heq & Hl & _). injection Heq as <-.
         rewrite Hlast in Hl. discriminate. }
    destruct (Average datapoint) as [average |] eqn:Haverage.
    2: { subst h. split; [discriminate |].
         intros (r' & dp & av & Heq & Hl & Hav & _). injection Heq as <-.
         rewrite Hlast in Hl. injection Hl as <-. rewrite Haverage in Hav. discriminate. }
    subst h. cbn [healthy]. rewrite num_lt_300_below. split.
    + intros Hbelow. exists response, datapoint, average. auto.
    + intros (r' & dp & av & Heq & Hl & Hav & Hbelow). injection Heq as <-.
      rewrite Hlast in Hl. injection Hl as <-. rewrite Haverage in Hav.
      injection Hav as <-. exact Hbelow.
  - intros response Hanswer Hempty. rewrite Hanswer, Hempty in Hcases. exact Hcases.
  - split; [reflexivity | reflexivity].
  - split; reflexivity.
Qed.

(** ** Failover *)


(** C5.  When the promotion call succeeds and one of the polls allowed
    by the 1800-second ceiling sees "available", the polls before it
    having seen other statuses, [initiate_failover] returns status 200
    with steps_completed being promoted_replica,
    replica_promotion_complete, dns_updated in that order, and sends one
    SUCCESS notification. *)
Theorem failover_completes (cfg : Config) (env : Env) (t : Trace) (k : nat) :
  let id := dr_replica_id cfg in
  let t2 := (t ++ notification_events cfg env t "Starting DR failover procedure" "INFO")
              ++ [PromoteReadReplica rds_dr (Some id)] in
  let t3 := t2 ++ poll_rounds rds_dr id k ++ [DescribeDBInstances rds_dr (Some id)] in
  promote_read_replica env rds_dr
    (t ++ notification_events cfg env t "Starting DR failover procedure" "INFO")
    (Some id) = inr tt ->
  (k < 60)%nat ->
  (forall j, (j < k)%nat ->
     exists s, observed_status env rds_dr (t2 ++ poll_rounds rds_dr id j) id = Some s
               /\ s <> "available") ->
  observed_status env rds_dr (t2 ++ poll_rounds rds_dr id k) id = Some "available" ->
  initiate_failover cfg env t =
    (t3 ++ notification_events cfg env t3
             "DR Failover completed successfully. Steps: ['promoted_replica', 'replica_promotion_complete', 'dns_updated']"
             "SUCCESS",
     inr {| statusCode := 200;
            body := json_dumps cfg
              (JObj [("message", JStr "Failover initiated successfully");
                     ("steps_completed",
                      JList [JStr "promoted_replica"; JStr "replica_promotion_complete";
                             JStr "dns_updated"]);
                     ("timestamp", JStr (timestamp cfg))]) |})
  /\ count_notifications cfg "SUCCESS"
       (events_since t (fst (initiate_failover cfg env t))) = 1%nat.
Proof.
  intros id t2 t3 Hpromote Hk Hbefore Hseen.
  assert (Hwait :
    wait_for_db_status env id "available" rds_dr default_max_wait t2 = (t3, inr true)).
  { unfold wait_for_db_status.
    apply (wait_loop_reaches env rds_dr id "available" default_max_wait k 0 t2);
      [unfold default_max_wait; lia | exact Hbefore | exact Hseen]. }
  pose proof (initiate_failover_run cfg env t) as Hrun. cbv zeta in Hrun.
  fold id in Hrun. rewrite Hpromote in Hrun. fold t2 in Hrun. rewrite Hwait in Hrun.
  split; [exact Hrun |].
  rewrite Hrun. cbn [fst]. unfold t3, t2.
  rewrite <- !app_assoc, events_since_app.
  rewrite !count_notifications_app, count_notification_events,
    count_notifications_poll_rounds, count_notification_events_same.
  reflexivity.
Qed.

(** ** Failback *)

Lemma initiate_failback_harmless (cfg : Config) (env : Env) (t : Trace) :
  Forall notification_or_primary_describe
    (events_since t (fst (initiate_failback cfg env t))).
Proof.
  destruct (initiate_failback_run cfg env t) as [h [_ Hrun]]. cbv zeta in Hrun.
  rewrite Hrun.
  destruct (healthy h); cbn [fst]; rewrite <- !app_assoc, events_since_app;
    repeat (apply Forall_app; split);
    try apply notification_events_harmless; repeat constructor.
Qed.

(** C6.  When the primary-database check reports unhealthy,
    [initiate_failback] raises "Primary database is not healthy, cannot
    failback" with [steps_completed] still empty; all it has called by
    then is the notification sink and the describe call on the primary
    database: no replica call, no DNS call, no change anywhere. *)
Theorem failback_refuses_unhealthy_primary (cfg : Config) (env : Env)
    (t t2 : Trace) (h : HealthRecord) :
  check_primary_database cfg env
    (t ++ notification_events cfg env t "Starting failback procedure" "INFO") = (t2, inr h) ->
  healthy h = false ->
  initiate_failback_try cfg env ([], t) =
    (([], t2), inl (Exception_ "Primary database is not healthy, cannot failback"))
  /\ initiate_failback cfg env t =
       (t2 ++ notification_events cfg env t2
                "Failback failed: Primary database is not healthy, cannot failback" "ERROR",
        inl (Exception_ "Primary database is not healthy, cannot failback"))
  /\ Forall notification_or_primary_describe
       (events_since t (fst (initiate_failback cfg env t))).
Proof.
  intros Hcheck Hh.
  split; [exact (initiate_failback_try_unhealthy cfg env t t2 h Hcheck Hh) |].
  split; [| apply initiate_failback_harmless].
  destruct (initiate_failback_run cfg env t) as [h' [Hcheck' Hrun]]. cbv zeta in *.
  rewrite Hcheck in Hcheck'. injection Hcheck' as Ht2 Hh'. subst h'.
  rewrite Hh in Hrun. rewrite Hrun, <- Ht2. reflexivity.
Qed.

(** C10.  On every path [initiate_failback] calls nothing but the
    notification sink and the describe call on the primary database: it
    creates no replica, promotes none and writes no DNS record.  When
    the primary-database check reports healthy it returns status 200
    with steps_completed being primary_health_verified, dns_reverted. *)
Theorem failback_frame (cfg : Config) (env : Env) (t : Trace) :
  Forall notification_or_primary_describe
    (events_since t (fst (initiate_failback cfg env t)))
  /\ (forall (t2 : Trace) (h : HealthRecord),
        check_primary_database cfg env
          (t ++ notification_events cfg env t "Starting failback procedure" "INFO")
        = (t2, inr h) ->
        healthy h = true ->
        initiate_failback cfg env t =
        (t2 ++ notification_events cfg env t2
                 "Failback completed successfully. Steps: ['primary_health_verified', 'dns_reverted']"
                 "SUCCESS",
         inr {| statusCode := 200;
                body := json_dumps cfg
                  (JObj [("message", JStr "Failback completed successfully");
                         ("steps_completed",
                          JList [JStr "primary_health_verified"; JStr "dns_reverted"]);
                         ("timestamp", JStr (timestamp cfg))]) |})).
Proof.
  split; [apply initiate_failback_harmless |].
  intros t2 h Hcheck Hh.
  destruct (initiate_failback_run cfg env t) as [h' [Hcheck' Hrun]]. cbv zeta in *.
  rewrite Hcheck in Hcheck'. injection Hcheck' as Ht2 Hh'. subst h'.
  rewrite Hh in Hrun. rewrite Hrun, <- Ht2. reflexivity.
Qed.

(** ** The DR test *)


(** ** The status poll *)

(** C8.  [wait_for_db_status] with the 1800-second ceiling is a total
    function, so every run ends.  Whatever the collaborator answers, a
    run makes at most 60 describe calls and sleeps at most 1800 seconds
    in all, 30 seconds after each poll that did not end it.  When every
    poll observes a status, the run either returns true at the first
    poll that observes the target, or raises the timeout exception after
    60 polls and 1800 seconds of sleep; it polls no further. *)
Theorem wait_for_db_status_bounded (env : Env) (client : RdsClient)
    (id target : string) (t : Trace) :
  (exists evs result,
     wait_for_db_status env id target client default_max_wait t = (t ++ evs, result)
     /\ (polls evs <= 60)%nat
     /\ slept evs <= 1800
     /\ Forall (poll_event client id) evs)
  /\ ((forall t', observed_status env client t' id <> None) ->
      (exists k,
         (k < 60)%nat
         /\ wait_for_db_status env id target client default_max_wait t =
            (t ++ poll_rounds client id k ++ [DescribeDBInstances client (Some id)], inr true)
         /\ observed_status env client (t ++ poll_rounds client id k) id = Some target
         /\ (forall j, (j < k)%nat ->
               observed_status env client (t ++ poll_rounds client id j) id <> Some target))
      \/ (wait_for_db_status env id target client default_max_wait t =
            (t ++ poll_rounds client id 60, inl (timeout_exception id target default_max_wait))
          /\ slept (poll_rounds client id 60) = 1800
          /\ polls (poll_rounds client id 60) = 60%nat
          /\ (forall j, (j < 60)%nat ->
                observed_status env client (t ++ poll_rounds client id j) id <> Some target))).
Proof.
  pose proof (wait_loop_outcome env client id target default_max_wait 60 0 t eq_refl)
    as Hout.
  change (wait_loop env client id target default_max_wait 0 t)
    with (wait_for_db_status env id target client default_max_wait t) in Hout.
  assert (Hother : forall k,
    (forall j, (j < k)%nat ->
       exists s, observed_status env client (t ++ poll_rounds client id j) id = Some s
                 /\ s <> target) ->
    forall j, (j < k)%nat ->
      observed_status env client (t ++ poll_rounds client id j) id <> Some target).
  { intros k Hk j Hj. destruct (Hk j Hj) as [s [Hs Hne]]. rewrite Hs. congruence. }
  split.
  - assert (Hevents : forall k,
      Forall (poll_event client id)
        (poll_rounds client id k ++ [DescribeDBInstances client (Some id)])).
    { intros k. apply Forall_app. split; [apply poll_rounds_events |].
      repeat constructor. }
    inversion Hout as [k Hk Hbefore Hseen Heq | k e Hk Hseen Heq | Hnone Heq].
    + exists (poll_rounds client id k ++ [DescribeDBInstances client (Some id)]), (inr true).
      rewrite slept_app, polls_app, slept_poll_rounds, polls_poll_rounds.
      cbn [slept polls fold_right List.filter length].
      split; [reflexivity | repeat split; try lia; apply Hevents].
    + exists (poll_rounds client id k ++ [DescribeDBInstances client (Some id)]), (inl e).
      rewrite slept_app, polls_app, slept_poll_rounds, polls_poll_rounds.
      cbn [slept polls fold_right List.filter length].
      split; [reflexivity | repeat split; try lia; apply Hevents].
    + exists (poll_rounds client id 60),
             (inl (timeout_exception id target default_max_wait)).
      rewrite slept_poll_rounds, polls_poll_rounds.
      split; [reflexivity | repeat split; try lia; apply poll_rounds_events].
  - intros Hobserves.
    inversion Hout as [k Hk Hbefore Hseen Heq | k e Hk Hseen Heq | Hnone Heq].
    + left. exists k. repeat split; auto. apply (Hother k Hbefore).
    + exfalso. exact (Hobserves _ Hseen).
    + right. rewrite slept_poll_rounds, polls_poll_rounds.
      repeat split; auto. apply (Hother 60%nat Hnone).
Qed.

(** ** The claims on the sample collaborators *)

(** The sample runs below evaluate the embedding itself. *)
Example sample_failover_trace :
  fst (initiate_failover sample_config env_modifying_then_available []) =
  [SnsPublish (publication sample_config "Starting DR failover procedure" "INFO");
   PromoteReadReplica rds_dr (Some "mobile-db-dr-replica");
   DescribeDBInstances rds_dr (Some "mobile-db-dr-replica");
   Sleep 30;
   DescribeDBInstances rds_dr (Some "mobile-db-dr-replica");
   SnsPublish (publication sample_config
                 "DR Failover completed successfully. Steps: ['promoted_replica', 'replica_promotion_complete', 'dns_updated']"
                 "SUCCESS")].
Proof. vm_compute. reflexivity. Qed.

Example sample_lag_299_healthy :
  snd (check_replication_lag sample_config
         (sample_env "available" (fun _ => "available") (inr tt) (lag (PyInt 299))) []) =
  inr {| healthy := true;
         health_fields := [("lag_seconds", JNum (PyInt 299));
                           ("threshold_seconds", JNum (PyInt 300))] |}.
Proof. reflexivity. Qed.

Example sample_lag_300_unhealthy :
  snd (check_replication_lag sample_config
         (sample_env "available" (fun _ => "available") (inr tt) (lag (PyFloat 300))) []) =
  inr {| healthy := false;
         health_fields := [("lag_seconds", JNum (PyFloat 300));
                           ("threshold_seconds", JNum (PyInt 300))] |}.
Proof. reflexivity. Qed.

Example sample_lag_missing_unhealthy :
  snd (check_replication_lag sample_config
         (sample_env "available" (fun _ => "available") (inr tt) []) []) =
  inr {| healthy := false;
         health_fields := [("error", JStr "No replication lag metrics available")] |}.
Proof. reflexivity. Qed.

Example sample_health_check_body :
  snd (perform_health_check sample_config env_primary_down []) =
  inr {| statusCode := 200;
         body := render
           (JObj [("primary_db",
                   JObj [("healthy", JBool false); ("status", JStr "stopped");
                         ("endpoint", JStr "db.example.internal");
                         ("multi_az", JBool true)]);
                  ("dr_replica",
                   JObj [("healthy", JBool true); ("status", JStr "available");
                         ("endpoint", JStr "db.example.internal");
                         ("read_replica_source", JStr "mobile-db")]);
                  ("replication_lag",
                   JObj [("healthy", JBool true); ("lag_seconds", JNum (PyFloat 12.5));
                         ("threshold_seconds", JNum (PyInt 300))]);
                  ("route53_health",
                   JObj [("healthy", JBool true); ("status", JStr "active")]);
                  ("overall_status", JStr "unhealthy")]) |}.
Proof. vm_compute. reflexivity. Qed.

(** The handler on the action initiate_failover. *)
Lemma handler_routes_by_action_witness :
  event_of_action "initiate_failover" !! "action" = Some (JStr "initiate_failover")
  /\ handler sample_config env_healthy (event_of_action "initiate_failover") [] =
     try_except (initiate_failover sample_config env_healthy)
       (handler_except sample_config env_healthy) [].
Proof.
  split; [reflexivity |].
  exact (handler_routes_by_action sample_config env_healthy
           (event_of_action "initiate_failover") (JStr "initiate_failover") []
           eq_refl).
Defined.

(** The action tag failover of the specification is unknown to the
    handler, which answers 500 where the failover procedure would answer
    200; and an unknown action does reach a collaborator, the
    notification sink. *)
Lemma spec_dispatch_counterexample :
  ~ spec_dispatch sample_config env_healthy
  /\ snd (handler sample_config env_healthy (event_of_action "failover") []) =
     inr (unknown_action_response sample_config (JStr "failover"))
  /\ (exists response,
        snd (try_except (initiate_failover sample_config env_healthy)
               (handler_except sample_config env_healthy) []) = inr response
        /\ statusCode response = 200)
  /\ fst (handler sample_config env_healthy (event_of_action "bogus") []) =
     [SnsPublish (publication sample_config
                    "DR Automation failed: Unknown action: bogus" "ERROR")].
Proof.
  split; [| split; [| split]].
  - intros Hspec.
    specialize (Hspec (event_of_action "failover") "failover" [] eq_refl).
    cbn [spec_procedure_of String.eqb Ascii.eqb Bool.eqb] in Hspec.
    apply (f_equal (fun r => match snd r with
                             | inr response => statusCode response
                             | inl _ => 0
                             end)) in Hspec.
    vm_compute in Hspec. discriminate.
  - vm_compute. reflexivity.
  - eexists. split; vm_compute; reflexivity.
  - vm_compute. reflexivity.
Qed.



(** The health check on healthy collaborators, with the sub-checks of
    the class. *)
Lemma health_check_aggregate_witness :
  exists t1 t2 t3 t4 p d l r,
    check_primary_database sample_config env_healthy [] = (t1, inr p)
    /\ check_dr_replica sample_config env_healthy t1 = (t2, inr d)
    /\ check_replication_lag sample_config env_healthy t2 = (t3, inr l)
    /\ check_route53_health t3 = (t4, inr r)
    /\ exists overall_status,
         (exists t',
            perform_health_check sample_config env_healthy [] =
            (t', inr {| statusCode := 200;
                        body := render
                          (JObj [("primary_db",
                                  JObj (("healthy", JBool (healthy p)) :: health_fields p));
                                 ("dr_replica",
                                  JObj (("healthy", JBool (healthy d)) :: health_fields d));
                                 ("replication_lag",
                                  JObj (("healthy", JBool (healthy l)) :: health_fields l));
                                 ("route53_health",
                                  JObj (("healthy", JBool (healthy r)) :: health_fields r));
                                 ("overall_status", JStr overall_status)]) |}))
         /\ (overall_status = "healthy" <->
             healthy p = true /\ healthy d = true /\ healthy l = true).
Proof.
  eexists _, _, _, _, _, _, _, _.
  split; [vm_compute; reflexivity |].
  split; [vm_compute; reflexivity |].
  split; [vm_compute; reflexivity |].
  split; [vm_compute; reflexivity |].
  destruct (health_check_aggregate sample_config env_healthy
              (check_primary_database sample_config env_healthy)
              (check_dr_replica sample_config env_healthy)
              (check_replication_lag sample_config env_healthy)
              check_route53_health
              [] _ _ _ _ _ _ _ _ eq_refl eq_refl eq_refl eq_refl)
    as (overall_status & Hrun & Hiff & _).
  exists overall_status. split; [exact Hrun | exact Hiff].
Defined.

(** The replica reports "modifying", then "available". *)
Lemma failover_completes_witness :
  exists t',
    initiate_failover sample_config env_modifying_then_available [] =
    (t', inr {| statusCode := 200;
                body := render
                  (JObj [("message", JStr "Failover initiated successfully");
                         ("steps_completed",
                          JList [JStr "promoted_replica"; JStr "replica_promotion_complete";
                                 JStr "dns_updated"]);
                         ("timestamp", JStr "2024-01-01T00:00:00+00:00")]) |})
    /\ count_notifications sample_config "SUCCESS" (events_since [] t') = 1%nat.
Proof.
  assert (Hbefore : forall j, (j < 1)%nat ->
    exists s,
      observed_status env_modifying_then_available rds_dr
        ((([] ++ notification_events sample_config env_modifying_then_available []
                   "Starting DR failover procedure" "INFO")
            ++ [PromoteReadReplica rds_dr (Some (dr_replica_id sample_config))])
           ++ poll_rounds rds_dr (dr_replica_id sample_config) j)
        (dr_replica_id sample_config) = Some s
      /\ s <> "available").
  { intros [| j] Hj; [| lia]. exists "modifying". split; [reflexivity | discriminate]. }
  destruct (failover_completes sample_config env_modifying_then_available [] 1
              eq_refl ltac:(lia) Hbefore eq_refl) as [Hrun Hcount].
  eexists. split; [exact Hrun |].
  rewrite Hrun in Hcount. exact Hcount.
Defined.

(** The primary database is down. *)
Lemma failback_refuses_unhealthy_primary_witness :
  exists t2 h,
    check_primary_database sample_config env_primary_down
      ([] ++ notification_events sample_config env_primary_down []
               "Starting failback procedure" "INFO") = (t2, inr h)
    /\ healthy h = false
    /\ initiate_failback sample_config env_primary_down [] =
       (t2 ++ notification_events sample_config env_primary_down t2
                "Failback failed: Primary database is not healthy, cannot failback" "ERROR",
        inl (Exception_ "Primary database is not healthy, cannot failback")).
Proof.
  eexists _, _.
  split; [vm_compute; reflexivity |].
  split; [reflexivity |].
  exact (proj1 (proj2 (failback_refuses_unhealthy_primary sample_config env_primary_down
                         [] _ _ eq_refl eq_refl))).
Defined.

(** The primary database is healthy. *)
Lemma failback_frame_witness :
  exists t2 h,
    check_primary_database sample_config env_healthy
      ([] ++ notification_events sample_config env_healthy []
               "Starting failback procedure" "INFO") = (t2, inr h)
    /\ healthy h = true
    /\ initiate_failback sample_config env_healthy [] =
       (t2 ++ notification_events sample_config env_healthy t2
                "Failback completed successfully. Steps: ['primary_health_verified', 'dns_reverted']"
                "SUCCESS",
        inr {| statusCode := 200;
               body := render
                 (JObj [("message", JStr "Failback completed successfully");
                        ("steps_completed",
                         JList [JStr "primary_health_verified"; JStr "dns_reverted"]);
                        ("timestamp", JStr "2024-01-01T00:00:00+00:00")]) |}).
Proof.
  eexists _, _.
  split; [vm_compute; reflexivity |].
  split; [reflexivity |].
  exact (proj2 (failback_frame sample_config env_healthy []) _ _ eq_refl eq_refl).
Defined.

(** A replica that never leaves "modifying": the poll gives up after 60
    rounds. *)
Lemma wait_for_db_status_bounded_witness :
  (forall t', observed_status env_never_available rds_dr t' "mobile-db-dr-replica" <> None)
  /\ wait_for_db_status env_never_available "mobile-db-dr-replica" "available" rds_dr
       default_max_wait [] =
     ([] ++ poll_rounds rds_dr "mobile-db-dr-replica" 60,
      inl (timeout_exception "mobile-db-dr-replica" "available" default_max_wait)).
Proof.
  assert (Hobserves :
    forall t', observed_status env_never_available rds_dr t' "mobile-db-dr-replica" <> None).
  { intros t'. discriminate. }
  split; [exact Hobserves |].
  destruct (proj2 (wait_for_db_status_bounded env_never_available rds_dr
                     "mobile-db-dr-replica" "available" []) Hobserves)
    as [(k & _ & _ & Hseen & _) | (Hrun & _)].
  - discriminate Hseen.
  - exact Hrun.
Defined.

(** An event without an action. *)
Lemma handler_defaults_to_health_check_witness :
  (∅ : gmap string json) !! "action" = None
  /\ handler sample_config env_healthy ∅ [] = perform_health_check sample_config env_healthy [].
Proof.
  split; [reflexivity |].
  exact (proj1 (handler_defaults_to_health_check sample_config env_healthy ∅ [] eq_refl)).
Defined.


(** ** Further facts about the methods *)

Section Further.

Context (cfg : Config) (env : Env).

Lemma count_events_app (kind : Event -> bool) (evs evs' : Trace) :
  count_events kind (evs ++ evs') = (count_events kind evs + count_events kind evs')%nat.
Proof.
  unfold count_events. rewrite List.filter_app, length_app. reflexivity.
Qed.

Lemma count_events_notification (kind : Event -> bool) (message severity : string)
    (t : Trace) :
  (forall p, kind (SnsPublish p) = false) ->
  (forall line, kind (Print line) = false) ->
  count_events kind (notification_events cfg env t message severity) = 0%nat.
Proof.
  intros Hpublish Hprint. unfold count_events, notification_events.
  destruct (sns_publish env t (publication cfg message severity)); cbn [List.filter];
    rewrite ?Hpublish, ?Hprint; reflexivity.
Qed.

Lemma count_events_poll (kind : Event -> bool) (client : RdsClient) (id : string)
    (evs : Trace) :
  (forall c i, kind (DescribeDBInstances c i) = false) ->
  (forall seconds, kind (Sleep seconds) = false) ->
  Forall (poll_event client id) evs ->
  count_events kind evs = 0%nat.
Proof.
  intros Hdescribe Hsleep Hevs. unfold count_events.
  induction Hevs as [| ev evs Hev _ IH]; [reflexivity |].
  cbn [List.filter].
  destruct ev; try contradiction; rewrite ?Hdescribe, ?Hsleep; exact IH.
Qed.

(** What [check_primary_database] returns, by the collaborator's answer. *)
Lemma check_primary_database_cases (t : Trace) :
  exists h,
    check_primary_database cfg env t =
      (t ++ [DescribeDBInstances rds_primary (DB_IDENTIFIER cfg)], inr h) /\
    match describe_db_instances env rds_primary t (DB_IDENTIFIER cfg) with
    | inl e => h = unhealthy_error e
    | inr response =>
        match DBInstances response with
        | [] => h = unhealthy_error IndexError
        | db_instance :: _ =>
            match DBInstanceStatus db_instance, MultiAZ db_instance with
            | None, _ => h = unhealthy_error (KeyError "DBInstanceStatus")
            | Some _, None => h = unhealthy_error (KeyError "MultiAZ")
            | Some status, Some multi_az => h = primary_record db_instance status multi_az
            end
        end
    end.
Proof.
  unfold check_primary_database, try_except, bind, describe, call.
  destruct (describe_db_instances env rds_primary t (DB_IDENTIFIER cfg))
    as [e | [[| db rest]]]; simpl; eauto.
  destruct (DBInstanceStatus db); simpl; eauto.
  destruct (MultiAZ db); simpl; eauto.
Qed.


(** What a run of the poll loop adds to the trace, for any ceiling. *)
Lemma wait_for_db_status_events (client : RdsClient) (id target : string) (max_wait : Z)
    (t : Trace) :
  exists evs result,
    wait_for_db_status env id target client max_wait t = (t ++ evs, result)
    /\ Forall (poll_event client id) evs
    /\ (polls evs <= remaining_polls max_wait 0)%nat
    /\ slept evs <= 30 * Z.of_nat (remaining_polls max_wait 0)
    /\ match result with
       | inr b => b = true
       | inl _ => True
       end.
Proof.
  pose proof (wait_loop_outcome env client id target max_wait
                (remaining_polls max_wait 0) 0 t eq_refl) as Hout.
  change (wait_loop env client id target max_wait 0 t)
    with (wait_for_db_status env id target client max_wait t) in Hout.
  assert (Hevents : forall k,
    Forall (poll_event client id)
      (poll_rounds client id k ++ [DescribeDBInstances client (Some id)])).
  { intros k. apply Forall_app. split; [apply poll_rounds_events |].
    repeat constructor. }
  inversion Hout as [k Hk Hbefore Hseen Heq | k e Hk Hseen Heq | Hnone Heq].
  - exists (poll_rounds client id k ++ [DescribeDBInstances client (Some id)]), (inr true).
    rewrite slept_app, polls_app, slept_poll_rounds, polls_poll_rounds.
    cbn [slept polls fold_right List.filter length].
    split; [reflexivity |]. split; [apply Hevents |]. repeat split; lia.
  - exists (poll_rounds client id k ++ [DescribeDBInstances client (Some id)]), (inl e).
    rewrite slept_app, polls_app, slept_poll_rounds, polls_poll_rounds.
    cbn [slept polls fold_right List.filter length].
    split; [reflexivity |]. split; [apply Hevents |]. repeat split; lia.
  - exists (poll_rounds client id (remaining_polls max_wait 0)),
           (inl (timeout_exception id target max_wait)).
    rewrite slept_poll_rounds, polls_poll_rounds.
    split; [reflexivity |]. split; [apply poll_rounds_events |]. repeat split; lia.
Qed.

(** [perform_health_check] with the sub-checks of the class, in full. *)
Lemma perform_health_check_run (t : Trace) :
  let t1 := t ++ [DescribeDBInstances rds_primary (DB_IDENTIFIER cfg)] in
  let t2 := t1 ++ [DescribeDBInstances rds_dr (Some (dr_replica_id cfg))] in
  let t3 := t2 ++ [CloudwatchGetMetricStatistics (replica_lag_query cfg)] in
  let dns := {| healthy := true; health_fields := [("status", JStr "active")] |} in
  exists p d l,
    check_primary_database cfg env t = (t1, inr p)
    /\ check_dr_replica cfg env t1 = (t2, inr d)
    /\ check_replication_lag cfg env t2 = (t3, inr l)
    /\ perform_health_check cfg env t =
       if healthy p && healthy d && healthy l
       then (t3, inr {| statusCode := 200;
                        body := json_dumps cfg (health_status p d l dns "healthy") |})
       else (t3 ++ notification_events cfg env t3
                     ("DR Health Check Failed: "
                      +:+ json_dumps_indent2 cfg (health_status p d l dns "unhealthy"))
                     "WARNING",
             inr {| statusCode := 200;
                    body := json_dumps cfg (health_status p d l dns "unhealthy") |}).
Proof.
  cbv zeta.
  destruct (check_primary_database_run cfg env t) as [p Hp].
  destruct (check_dr_replica_run cfg env
              (t ++ [DescribeDBInstances rds_primary (DB_IDENTIFIER cfg)])) as [d Hd].
  destruct (check_replication_lag_cases cfg env
              ((t ++ [DescribeDBInstances rds_primary (DB_IDENTIFIER cfg)])
                 ++ [DescribeDBInstances rds_dr (Some (dr_replica_id cfg))])) as [l [Hl _]].
  exists p, d, l. split; [exact Hp |]. split; [exact Hd |]. split; [exact Hl |].
  unfold perform_health_check.
  apply (perform_health_check_with_run cfg env _ _ _ _ _ _ _ _ _ _ _ _ _ Hp Hd Hl
           (check_route53_health_run _)).
Qed.

(** [test_disaster_recovery] with the probes of the class, in full. *)
Lemma test_disaster_recovery_run (t : Trace) :
  let t1 := t ++ [DescribeDBInstances rds_dr (Some (dr_replica_id cfg))] in
  let t2 := t1 ++ notification_events cfg env t1 "DR Test Alert" "TEST" in
  exists dr_health,
    check_dr_replica cfg env t = (t1, inr dr_health)
    /\ let connectivity :=
         {| success := healthy dr_health;
            probe_fields := [("details", health_json dr_health)] |} in
       let results :=
         test_results connectivity simulation_record alert_record backup_record in
       test_disaster_recovery cfg env t =
       (t2 ++ notification_events cfg env t2
                ("DR Test Results: "
                 +:+ (if healthy dr_health then "PASSED" else "FAILED") +:+ "
Details: " +:+ json_dumps_indent2 cfg (results_json results))
                "INFO",
        inr {| statusCode := 200;
               body := json_dumps cfg
                         (JObj [("test_results", results_json results);
                                ("overall_success", JBool (healthy dr_health));
                                ("timestamp", JStr (timestamp cfg))]) |}).
Proof.
  cbv zeta.
  destruct (check_dr_replica_run cfg env t) as [h Hh].
  exists h. split; [exact Hh |].
  unfold test_disaster_recovery.
  rewrite (test_disaster_recovery_with_run cfg env _ _ _ _ t
             (t ++ [DescribeDBInstances rds_dr (Some (dr_replica_id cfg))])
             (t ++ [DescribeDBInstances rds_dr (Some (dr_replica_id cfg))])
             ((t ++ [DescribeDBInstances rds_dr (Some (dr_replica_id cfg))])
                ++ notification_events cfg env
                     (t ++ [DescribeDBInstances rds_dr (Some (dr_replica_id cfg))])
                     "DR Test Alert" "TEST")
             ((t ++ [DescribeDBInstances rds_dr (Some (dr_replica_id cfg))])
                ++ notification_events cfg env
                     (t ++ [DescribeDBInstances rds_dr (Some (dr_replica_id cfg))])
                     "DR Test Alert" "TEST")
             {| success := healthy h; probe_fields := [("details", health_json h)] |}
             simulation_record alert_record backup_record).
  - cbv zeta. cbn [success simulation_record alert_record backup_record].
    rewrite !andb_true_r. reflexivity.
  - unfold test_dr_connectivity. rewrite test_dr_connectivity_with_run, Hh. reflexivity.
  - reflexivity.
  - unfold test_monitoring_alerts.
    rewrite test_monitoring_alerts_with_run, send_notification_run. reflexivity.
  - reflexivity.
Qed.

(** The five ways [dispatch] can go. *)
Lemma dispatch_cases (event : gmap string json) :
  (forall t, dispatch cfg env event t = perform_health_check cfg env t)
  \/ (event !! "action" = Some (JStr "initiate_failover")
      /\ forall t, dispatch cfg env event t = initiate_failover cfg env t)
  \/ (forall t, dispatch cfg env event t = initiate_failback cfg env t)
  \/ (forall t, dispatch cfg env event t = test_disaster_recovery cfg env t)
  \/ (exists e, forall t, dispatch cfg env event t = (t, inl e)).
Proof.
  unfold dispatch.
  destruct (event !! "action") as [action |] eqn:Hget; cbn [default from_option id].
  2: { left. reflexivity. }
  destruct action as [| b | n | tag | l | kv];
    try (right; right; right; right; eexists; intros t; reflexivity).
  unfold is_tag.
  destruct (String.eqb tag "health_check") eqn:H1; [left; reflexivity |].
  destruct (String.eqb tag "initiate_failover") eqn:H2.
  { apply String.eqb_eq in H2. subst tag. right. left. split; reflexivity. }
  destruct (String.eqb tag "failback") eqn:H3; [right; right; left; reflexivity |].
  destruct (String.eqb tag "test_dr") eqn:H4; [right; right; right; left; reflexivity |].
  right; right; right; right. eexists. intros t. reflexivity.
Qed.

End Further.

Section Quiet.

Context (cfg : Config) (env : Env) (kind : Event -> bool) (Hkind : beyond_reads kind).

Lemma notification_quiet (message severity : string) (t : Trace) :
  count_events kind (notification_events cfg env t message severity) = 0%nat.
Proof.
  destruct Hkind as (_ & _ & Hpublish & Hprint).
  apply count_events_notification; assumption.
Qed.

Lemma perform_health_check_quiet (t : Trace) :
  exists evs response,
    perform_health_check cfg env t = (t ++ evs, inr response)
    /\ statusCode response = 200
    /\ count_events kind evs = 0%nat.
Proof.
  destruct (perform_health_check_run cfg env t) as (p & d & l & _ & _ & _ & Hrun).
  cbv zeta in Hrun. rewrite Hrun.
  destruct Hkind as (Hdescribe & Hmetric & _ & _).
  destruct (healthy p && healthy d && healthy l); rewrite <- !app_assoc;
    eexists _, _; (split; [reflexivity |]); (split; [reflexivity |]);
    rewrite ?count_events_app, ?notification_quiet;
    unfold count_events; cbn [List.filter app];
    rewrite !Hdescribe, Hmetric; reflexivity.
Qed.

Lemma initiate_failback_quiet (t : Trace) :
  exists evs result,
    initiate_failback cfg env t = (t ++ evs, result)
    /\ match result with inr response => statusCode response = 200 | inl _ => True end
    /\ count_events kind evs = 0%nat.
Proof.
  destruct (initiate_failback_run cfg env t) as (h & _ & Hrun).
  cbv zeta in Hrun. rewrite Hrun.
  destruct Hkind as (Hdescribe & _ & _ & _).
  destruct (healthy h); rewrite <- !app_assoc;
    eexists _, _; (split; [reflexivity |]); (split; [exact I || reflexivity |]);
    rewrite !count_events_app, !notification_quiet;
    unfold count_events; cbn [List.filter];
    rewrite Hdescribe; reflexivity.
Qed.

Lemma test_disaster_recovery_quiet (t : Trace) :
  exists evs response,
    test_disaster_recovery cfg env t = (t ++ evs, inr response)
    /\ statusCode response = 200
    /\ count_events kind evs = 0%nat.
Proof.
  destruct (test_disaster_recovery_run cfg env t) as (h & _ & Hrun).
  cbv zeta in Hrun. rewrite Hrun.
  destruct Hkind as (Hdescribe & _ & _ & _).
  rewrite <- !app_assoc.
  eexists _, _. split; [reflexivity |]. split; [reflexivity |].
  rewrite !count_events_app, !notification_quiet.
  unfold count_events; cbn [List.filter].
  rewrite Hdescribe. reflexivity.
Qed.

End Quiet.

(** What [initiate_failover] adds to the trace on every path: the start
    notification, the promotion call, the polls and a closing
    notification. *)
Lemma initiate_failover_events (cfg : Config) (env : Env) (t : Trace) :
  exists polled closing result,
    initiate_failover cfg env t =
      (t ++ notification_events cfg env t "Starting DR failover procedure" "INFO"
         ++ [PromoteReadReplica rds_dr (Some (dr_replica_id cfg))]
         ++ polled ++ closing,
       result)
    /\ Forall (poll_event rds_dr (dr_replica_id cfg)) polled
    /\ (exists t' message severity,
          closing = notification_events cfg env t' message severity)
    /\ match result with inr response => statusCode response = 200 | inl _ => True end.
Proof.
  pose proof (initiate_failover_run cfg env t) as Hrun. cbv zeta in Hrun.
  destruct (promote_read_replica env rds_dr _ (Some (dr_replica_id cfg))) as [e | u].
  - exists [], (notification_events cfg env
                  ((t ++ notification_events cfg env t
                           "Starting DR failover procedure" "INFO")
                     ++ [PromoteReadReplica rds_dr (Some (dr_replica_id cfg))])
                  ("Failover failed at step 0: " +:+ exn_str e) "ERROR"), (inl e).
    rewrite Hrun, <- !app_assoc. cbn [app].
    split; [reflexivity |]. split; [constructor |]. split; [eauto | exact I].
  - destruct (wait_for_db_status_events env rds_dr (dr_replica_id cfg) "available"
                default_max_wait
                ((t ++ notification_events cfg env t
                         "Starting DR failover procedure" "INFO")
                   ++ [PromoteReadReplica rds_dr (Some (dr_replica_id cfg))]))
      as (polled & outcome & Hwait & Hpolled & _).
    rewrite Hwait in Hrun. exists polled.
    destruct outcome as [e | b]; rewrite Hrun, <- !app_assoc; cbn [app];
      eexists _, _; (split; [reflexivity |]); (split; [exact Hpolled |]);
      (split; [eauto | exact I || reflexivity]).
Qed.

(** A procedure that returns does so with status 200. *)
Lemma dispatch_returns_200 (cfg : Config) (env : Env) (event : gmap string json)
    (t t' : Trace) (response : Response) :
  dispatch cfg env event t = (t', inr response) -> statusCode response = 200.
Proof.
  assert (Hquiet : beyond_reads (fun _ => false)) by (repeat split).
  intros Hrun.
  destruct (dispatch_cases cfg env event)
    as [Hd | [[_ Hd] | [Hd | [Hd | [e Hd]]]]]; rewrite Hd in Hrun.
  - destruct (perform_health_check_quiet cfg env _ Hquiet t) as (evs & r & Hp & Hcode & _).
    rewrite Hp in Hrun. injection Hrun as _ <-. exact Hcode.
  - destruct (initiate_failover_events cfg env t) as (po & cl & r & Hp & _ & _ & Hcode).
    rewrite Hp in Hrun. injection Hrun as _ ->. exact Hcode.
  - destruct (initiate_failback_quiet cfg env _ Hquiet t) as (evs & r & Hp & Hcode & _).
    rewrite Hp in Hrun. injection Hrun as _ ->. exact Hcode.
  - destruct (test_disaster_recovery_quiet cfg env _ Hquiet t) as (evs & r & Hp & Hcode & _).
    rewrite Hp in Hrun. injection Hrun as _ <-. exact Hcode.
  - discriminate.
Qed.


(** ** Further properties *)

Ltac settle :=
  intros;
  repeat match goal with
         | H : exists _, _ |- _ => destruct H
         | H : _ /\ _ |- _ => destruct H
         end;
  unfold unhealthy_error, primary_record, replica_record in *;
  cbn [healthy] in *;
  first [reflexivity | congruence | (simplify_eq; reflexivity)].

(** X1.  [send_notification] never raises.  It makes one publish call
    with the configured topic and the subject "DR Automation - severity
    - environment"; when that call raises, the error is printed and
    nothing else happens. *)
Theorem send_notification_contained (cfg : Config) (env : Env)
    (message severity : string) (t : Trace) :
  exists evs,
    send_notification cfg env message severity t = (t ++ evs, inr tt)
    /\ count_events is_publish evs = 1%nat
    /\ head evs =
       Some (SnsPublish
               {| TopicArn := SNS_TOPIC_ARN cfg;
                  Message := message +:+ "

Timestamp: " +:+ timestamp cfg +:+ "
Environment: " +:+ ENVIRONMENT cfg;
                  Subject := "DR Automation - " +:+ severity +:+ " - "
                             +:+ ENVIRONMENT cfg |})
    /\ match sns_publish env t (publication cfg message severity) with
       | inr _ => tail evs = []
       | inl e => tail evs = [Print ("Failed to send notification: " +:+ exn_str e)]
       end.
Proof.
  exists (notification_events cfg env t message severity).
  split; [apply send_notification_run |].
  unfold notification_events, count_events.
  destruct (sns_publish env t (publication cfg message severity)); repeat split.
Qed.

(** X2.  [check_primary_database] makes one describe call on the primary
    client and always returns a record.  The record is healthy exactly
    when the call answers with a first instance whose status is
    "available" and whose MultiAZ entry is present.  A raised exception,
    an empty instance list and a missing MultiAZ entry each give an
    unhealthy record carrying the error text. *)
Theorem primary_check_healthy_iff (cfg : Config) (env : Env) (t : Trace) :
  exists h,
    check_primary_database cfg env t =
      (t ++ [DescribeDBInstances rds_primary (DB_IDENTIFIER cfg)], inr h)
    /\ (healthy h = true <->
        exists response db_instance rest multi_az,
          describe_db_instances env rds_primary t (DB_IDENTIFIER cfg) = inr response
          /\ DBInstances response = db_instance :: rest
          /\ DBInstanceStatus db_instance = Some "available"
          /\ MultiAZ db_instance = Some multi_az)
    /\ (forall e,
          describe_db_instances env rds_primary t (DB_IDENTIFIER cfg) = inl e ->
          h = {| healthy := false; health_fields := [("error", JStr (exn_str e))] |})
    /\ (forall response,
          describe_db_instances env rds_primary t (DB_IDENTIFIER cfg) = inr response ->
          DBInstances response = [] ->
          h = {| healthy := false;
                 health_fields := [("error", JStr "list index out of range")] |})
    /\ (forall response db_instance rest status,
          describe_db_instances env rds_primary t (DB_IDENTIFIER cfg) = inr response ->
          DBInstances response = db_instance :: rest ->
          DBInstanceStatus db_instance = Some status ->
          MultiAZ db_instance = None ->
          h = {| healthy := false; health_fields := [("error", JStr "'MultiAZ'")] |}).
Proof.
  destruct (check_primary_database_cases cfg env t) as [h [Hrun Hcases]].
  exists h. split; [exact Hrun |].
  destruct (describe_db_instances env rds_primary t (DB_IDENTIFIER cfg))
    as [e | response]; [subst h; repeat split; settle |].
  destruct (DBInstances response) as [| db rest] eqn:Hlist;
    [subst h; repeat split; settle |].
  destruct (DBInstanceStatus db) as [status |] eqn:Hstatus;
    [| subst h; repeat split; settle].
  destruct (MultiAZ db) as [multi_az |] eqn:Hmulti;
    [| subst h; repeat split; settle].
  subst h. cbn [primary_record healthy]. repeat split; try settle.
  - intros Heq. apply String.eqb_eq in Heq. subst status.
    exists response, db, rest, multi_az. auto.
  - intros (r' & db' & ? & ? & Hr & Hl & Hs & _).
    apply String.eqb_eq. congruence.
Qed.


(** X4.  [perform_health_check] never raises and answers 200 for every
    collaborator behaviour.  It makes the describe call on the primary,
    the describe call on the replica and the metrics query, in that
    order, and then sends one WARNING notification when the overall
    status is unhealthy and no notification at all when it is healthy. *)
Theorem health_check_warns_iff_unhealthy (cfg : Config) (env : Env) (t : Trace) :
  exists p d l notifications overall_status,
    perform_health_check cfg env t =
      (t ++ [DescribeDBInstances rds_primary (DB_IDENTIFIER cfg);
             DescribeDBInstances rds_dr (Some (dr_replica_id cfg));
             CloudwatchGetMetricStatistics (replica_lag_query cfg)]
         ++ notifications,
       inr {| statusCode := 200;
              body := json_dumps cfg
                        (health_status p d l
                           {| healthy := true;
                              health_fields := [("status", JStr "active")] |}
                           overall_status) |})
    /\ (overall_status = "healthy" /\ notifications = []
        \/ overall_status = "unhealthy"
           /\ count_events is_publish notifications = 1%nat
           /\ count_notifications cfg "WARNING" notifications = 1%nat).
Proof.
  destruct (perform_health_check_run cfg env t) as (p & d & l & _ & _ & _ & Hrun).
  cbv zeta in Hrun. exists p, d, l.
  destruct (healthy p && healthy d && healthy l).
  - exists [], "healthy". rewrite Hrun, <- !app_assoc, app_nil_r. auto.
  - eexists _, "unhealthy". rewrite Hrun, <- !app_assoc. split; [reflexivity |].
    right. split; [reflexivity |].
    split; [| apply count_notification_events_same].
    unfold count_events, notification_events.
    destruct (sns_publish env _ _); reflexivity.
Qed.

(** X5.  The handler never raises: for every event and every
    collaborator behaviour it returns a response, with status 500 when
    the dispatched procedure raised (or the action is unknown) and
    status 200 otherwise. *)
Theorem handler_always_responds (cfg : Config) (env : Env) (event : gmap string json)
    (t : Trace) :
  exists t' response,
    handler cfg env event t = (t', inr response)
    /\ statusCode response =
       match snd (dispatch cfg env event t) with
       | inl _ => 500
       | inr _ => 200
       end.
Proof.
  unfold handler, try_except.
  destruct (dispatch cfg env event t) as [t' [e | response]] eqn:Hrun.
  - rewrite handler_except_run. eexists _, _. split; reflexivity.
  - exists t', response. split; [reflexivity |].
    exact (dispatch_returns_200 cfg env event t t' response Hrun).
Qed.






(** X8.  For every ceiling [max_wait] and every collaborator behaviour,
    [wait_for_db_status] only makes describe calls for the polled
    instance and sleeps of 30 seconds, and it stops within 30 seconds
    of the ceiling: the seconds slept, and thirty times the number of
    polls, stay below max_wait + 30 (below 30, hence zero sleep, for a
    ceiling that is not positive).  When it returns, it returns True. *)
Theorem wait_for_db_status_budget (env : Env) (client : RdsClient) (id target : string)
    (max_wait : Z) (t : Trace) :
  exists evs result,
    wait_for_db_status env id target client max_wait t = (t ++ evs, result)
    /\ Forall (poll_event client id) evs
    /\ slept evs < Z.max 0 max_wait + 30
    /\ 30 * Z.of_nat (polls evs) < Z.max 0 max_wait + 30
    /\ match result with inr b => b = true | inl _ => True end.
Proof.
  destruct (wait_for_db_status_events env client id target max_wait t)
    as (evs & result & Hrun & Hevents & Hpolls & Hslept & Hresult).
  exists evs, result. split; [exact Hrun |]. split; [exact Hevents |].
  assert (Hbound : 30 * Z.of_nat (remaining_polls max_wait 0) < Z.max 0 max_wait + 30).
  { unfold remaining_polls.
    destruct (Z_le_gt_dec max_wait 0) as [Hle | Hgt].
    - assert ((max_wait - 0 + 29) / 30 < 1) by (apply Z.div_lt_upper_bound; lia).
      lia.
    - assert (0 <= (max_wait - 0 + 29) / 30) by (apply Z.div_pos; lia).
      pose proof (Z.mul_div_le (max_wait - 0 + 29) 30 ltac:(lia)).
      rewrite Z2Nat.id by lia. lia. }
  repeat split; try lia. exact Hresult.
Qed.

(** X9.  With a ceiling that is not positive [wait_for_db_status] raises
    the timeout exception at once: it makes no describe call and does
    not sleep. *)
Theorem wait_for_db_status_no_budget (env : Env) (client : RdsClient) (id target : string)
    (max_wait : Z) (t : Trace) :
  max_wait <= 0 ->
  wait_for_db_status env id target client max_wait t =
  (t, inl (Exception_ ("Database " +:+ id +:+ " did not reach " +:+ target
                       +:+ " status within " +:+ fmt_int max_wait +:+ " seconds"))).
Proof.
  intros Hle. unfold wait_for_db_status.
  apply wait_loop_done. lia.
Qed.

(** X10.  [test_disaster_recovery] never raises and answers 200 for
    every collaborator behaviour.  Its overall_success is the health
    flag of the replica record: the simulation, alert and backup probes
    report success whatever the collaborators do, the alert probe even
    when the publish call raises.  It makes one describe call on the
    replica, sends one TEST and one INFO notification, and promotes
    nothing. *)
Theorem dr_test_passes_iff_replica_healthy (cfg : Config) (env : Env) (t : Trace) :
  exists dr_health evs,
    check_dr_replica cfg env t =
      (t ++ [DescribeDBInstances rds_dr (Some (dr_replica_id cfg))], inr dr_health)
    /\ test_disaster_recovery cfg env t =
       (t ++ evs,
        inr {| statusCode := 200;
               body := json_dumps cfg
                         (JObj [("test_results",
                                 results_json
                                   (test_results
                                      {| success := healthy dr_health;
                                         probe_fields :=
                                           [("details", health_json dr_health)] |}
                                      simulation_record alert_record backup_record));
                                ("overall_success", JBool (healthy dr_health));
                                ("timestamp", JStr (timestamp cfg))]) |})
    /\ count_events is_publish evs = 2%nat
    /\ count_notifications cfg "TEST" evs = 1%nat
    /\ count_notifications cfg "INFO" evs = 1%nat
    /\ polls evs = 1%nat
    /\ count_events is_promotion evs = 0%nat.
Proof.
  destruct (test_disaster_recovery_run cfg env t) as (h & Hcheck & Hrun).
  cbv zeta in Hrun.
  assert (Hpublish : forall u message severity,
    count_events is_publish (notification_events cfg env u message severity) = 1%nat).
  { intros u message severity. unfold count_events, notification_events.
    destruct (sns_publish env u _); reflexivity. }
  assert (Hpolls : forall u message severity,
    polls (notification_events cfg env u message severity) = 0%nat).
  { intros u message severity. unfold polls, notification_events.
    destruct (sns_publish env u _); reflexivity. }
  assert (Hquiet : beyond_reads is_promotion) by (repeat split).
  exists h. eexists. split; [exact Hcheck |].
  rewrite Hrun, <- !app_assoc. split; [reflexivity |].
  rewrite !count_events_app, !Hpublish, !count_notifications_app, !polls_app, !Hpolls,
    !(notification_quiet cfg env is_promotion Hquiet), !count_notification_events,
    !String.eqb_refl.
  repeat split; reflexivity.
Qed.

Lemma handler_quiet (cfg : Config) (env : Env) (kind : Event -> bool)
    (event : gmap string json) (t : Trace) :
  beyond_reads kind ->
  event !! "action" <> Some (JStr "initiate_failover") ->
  count_events kind (events_since t (fst (handler cfg env event t))) = 0%nat.
Proof.
  intros Hkind Hother. unfold handler, try_except.
  destruct (dispatch_cases cfg env event)
    as [Hd | [[Hfailover _] | [Hd | [Hd | [e Hd]]]]]; try contradiction; rewrite Hd.
  - destruct (perform_health_check_quiet cfg env kind Hkind t) as (evs & r & Hrun & _ & Hc).
    rewrite Hrun. cbn [fst]. rewrite events_since_app. exact Hc.
  - destruct (initiate_failback_quiet cfg env kind Hkind t) as (evs & r & Hrun & _ & Hc).
    rewrite Hrun. destruct r as [e | response].
    + rewrite handler_except_run. cbn [fst].
      rewrite <- app_assoc, events_since_app, count_events_app, Hc.
      rewrite (notification_quiet cfg env kind Hkind). reflexivity.
    + cbn [fst]. rewrite events_since_app. exact Hc.
  - destruct (test_disaster_recovery_quiet cfg env kind Hkind t)
      as (evs & r & Hrun & _ & Hc).
    rewrite Hrun. cbn [fst]. rewrite events_since_app. exact Hc.
  - rewrite handler_except_run. cbn [fst]. rewrite events_since_app.
    apply (notification_quiet cfg env kind Hkind).
Qed.

(** X11.  Whatever the event, unless its action is initiate_failover the
    handler promotes no replica, makes no Route53 call and never sleeps:
    health check, failback, DR test and unknown actions only describe,
    query metrics and notify. *)
Theorem only_failover_promotes (cfg : Config) (env : Env) (event : gmap string json)
    (t : Trace) :
  event !! "action" <> Some (JStr "initiate_failover") ->
  count_events is_promotion (events_since t (fst (handler cfg env event t))) = 0%nat
  /\ count_events is_dns_call (events_since t (fst (handler cfg env event t))) = 0%nat
  /\ count_events is_sleep (events_since t (fst (handler cfg env event t))) = 0%nat.
Proof.
  intros Hother.
  repeat split; apply handler_quiet; try exact Hother; repeat split.
Qed.

(** X12.  On every path, success or failure, a failover request makes
    exactly one promotion call, on the DR client for the replica
    identifier, right after the start notification, and no Route53 call
    at all: the step dns_updated is recorded without any DNS call. *)
Theorem failover_promotes_once (cfg : Config) (env : Env) (event : gmap string json)
    (t : Trace) :
  event !! "action" = Some (JStr "initiate_failover") ->
  exists rest,
    fst (handler cfg env event t) =
      t ++ notification_events cfg env t "Starting DR failover procedure" "INFO"
        ++ [PromoteReadReplica rds_dr (Some (dr_replica_id cfg))] ++ rest
    /\ count_events is_promotion rest = 0%nat
    /\ count_events is_promotion (events_since t (fst (handler cfg env event t))) = 1%nat
    /\ count_events is_dns_call (events_since t (fst (handler cfg env event t))) = 0%nat.
Proof.
  intros Haction.
  assert (Hquiet : forall kind u message severity,
    (forall p, kind (SnsPublish p) = false) ->
    (forall line, kind (Print line) = false) ->
    count_events kind (notification_events cfg env u message severity) = 0%nat).
  { intros kind u message severity Hp Hl. apply count_events_notification; assumption. }
  destruct (initiate_failover_events cfg env t)
    as (polled & closing & result & Hrun & Hpolled & (u & m & sv & Hclosing) & _).
  subst closing.
  assert (Hhandler : exists last,
    fst (handler cfg env event t) =
      t ++ notification_events cfg env t "Starting DR failover procedure" "INFO"
        ++ [PromoteReadReplica rds_dr (Some (dr_replica_id cfg))]
        ++ polled ++ notification_events cfg env u m sv ++ last
    /\ (forall kind,
          (forall p, kind (SnsPublish p) = false) ->
          (forall line, kind (Print line) = false) ->
          count_events kind last = 0%nat)).
  { unfold handler, try_except.
    rewrite (dispatch_run cfg env event _ t Haction). cbn [procedure_of String.eqb
      Ascii.eqb Bool.eqb]. rewrite Hrun.
    destruct result as [e | response].
    - rewrite handler_except_run. cbn [fst]. eexists.
      rewrite <- !app_assoc. split; [reflexivity |].
      intros kind Hp Hl. apply Hquiet; assumption.
    - exists []. cbn [fst]. rewrite app_nil_r. split; [reflexivity |].
      intros kind _ _. reflexivity. }
  destruct Hhandler as (last & Htrace & Hlast).
  set (rest := polled ++ notification_events cfg env u m sv ++ last) in *.
  assert (Hrest : forall kind,
    (forall c i, kind (DescribeDBInstances c i) = false) ->
    (forall seconds, kind (Sleep seconds) = false) ->
    (forall p, kind (SnsPublish p) = false) ->
    (forall line, kind (Print line) = false) ->
    count_events kind rest = 0%nat).
  { intros kind Hd Hs Hp Hl. unfold rest.
    rewrite !count_events_app, (count_events_poll kind rds_dr _ polled Hd Hs Hpolled),
      (Hquiet kind u m sv Hp Hl), (Hlast kind Hp Hl). reflexivity. }
  clearbody rest. exists rest. split; [exact Htrace |].
  split; [apply Hrest; reflexivity |].
  rewrite Htrace, events_since_app, !count_events_app.
  rewrite !Hrest, !Hquiet by reflexivity.
  split; reflexivity.
Qed.

(** X13.  [initiate_failover] returns a response only when the promotion
    call succeeded and one of the polls allowed by the ceiling saw the
    replica "available"; the response then is status 200 with the three
    steps.  In every other case it raises. *)
Theorem failover_success_needs_available (cfg : Config) (env : Env) (t t' : Trace)
    (response : Response) :
  initiate_failover cfg env t = (t', inr response) ->
  let id := dr_replica_id cfg in
  let t2 := (t ++ notification_events cfg env t "Starting DR failover procedure" "INFO")
              ++ [PromoteReadReplica rds_dr (Some id)] in
  promote_read_replica env rds_dr
    (t ++ notification_events cfg env t "Starting DR failover procedure" "INFO")
    (Some id) = inr tt
  /\ (exists k,
        (k < 60)%nat
        /\ observed_status env rds_dr (t2 ++ poll_rounds rds_dr id k) id = Some "available")
  /\ response =
     {| statusCode := 200;
        body := json_dumps cfg
          (JObj [("message", JStr "Failover initiated successfully");
                 ("steps_completed",
                  JList [JStr "promoted_replica"; JStr "replica_promotion_complete";
                         JStr "dns_updated"]);
                 ("timestamp", JStr (timestamp cfg))]) |}.
Proof.
  intros Hreturn id t2.
  pose proof (initiate_failover_run cfg env t) as Hrun. cbv zeta in Hrun.
  fold id in Hrun.
  destruct (promote_read_replica env rds_dr _ (Some id)) as [e | []];
    [rewrite Hrun in Hreturn; discriminate |].
  fold t2 in Hrun.
  pose proof (wait_loop_outcome env rds_dr id "available" default_max_wait 60 0 t2
                eq_refl) as Hout.
  change (wait_loop env rds_dr id "available" default_max_wait 0 t2)
    with (wait_for_db_status env id "available" rds_dr default_max_wait t2) in Hout.
  inversion Hout as [k Hk Hbefore Hseen Heq | k e Hk Hseen Heq | Hnone Heq];
    rewrite <- Heq in Hrun; rewrite Hrun in Hreturn; try discriminate.
  injection Hreturn as _ <-.
  split; [reflexivity |]. split; [eauto | reflexivity].
Qed.

(** ** The further properties on the sample collaborators *)

(** A ceiling of 100 seconds is overrun: four polls, 120 seconds. *)
Example sample_wait_overruns_ceiling :
  slept (fst (wait_for_db_status env_never_available "mobile-db-dr-replica" "available"
                rds_dr 100 [])) = 120
  /\ polls (fst (wait_for_db_status env_never_available "mobile-db-dr-replica" "available"
                   rds_dr 100 [])) = 4%nat.
Proof. split; vm_compute; reflexivity. Qed.



(** A ceiling of zero. *)
Lemma wait_for_db_status_no_budget_witness :
  0 <= 0
  /\ wait_for_db_status env_healthy "mobile-db-dr-replica" "available" rds_dr 0 [] =
     ([], inl (Exception_
                 "Database mobile-db-dr-replica did not reach available status within 0 seconds")).
Proof.
  split; [lia |].
  exact (wait_for_db_status_no_budget env_healthy rds_dr "mobile-db-dr-replica"
           "available" 0 [] ltac:(lia)).
Defined.

(** A failback request with the primary down. *)
Lemma only_failover_promotes_witness :
  event_of_action "failback" !! "action" <> Some (JStr "initiate_failover")
  /\ count_events is_promotion
       (events_since []
          (fst (handler sample_config env_primary_down (event_of_action "failback") [])))
     = 0%nat.
Proof.
  assert (Hother :
    event_of_action "failback" !! "action" <> Some (JStr "initiate_failover")).
  { rewrite lookup_event_of_action. discriminate. }
  split; [exact Hother |].
  exact (proj1 (only_failover_promotes sample_config env_primary_down
                  (event_of_action "failback") [] Hother)).
Defined.

(** A failover request whose promotion raises still made the call. *)
Lemma failover_promotes_once_witness :
  event_of_action "initiate_failover" !! "action" = Some (JStr "initiate_failover")
  /\ count_events is_promotion
       (events_since []
          (fst (handler sample_config env_promotion_fails
                  (event_of_action "initiate_failover") [])))
     = 1%nat.
Proof.
  split; [reflexivity |].
  destruct (failover_promotes_once sample_config env_promotion_fails
              (event_of_action "initiate_failover") [] eq_refl)
    as (rest & _ & _ & Hone & _).
  exact Hone.
Defined.

(** The replica reports "modifying", then "available": the failover
    returns, and a poll had seen "available". *)
Lemma failover_success_needs_available_witness :
  exists t' response,
    initiate_failover sample_config env_modifying_then_available [] = (t', inr response)
    /\ exists k,
         (k < 60)%nat
         /\ observed_status env_modifying_then_available rds_dr
              ((([] ++ notification_events sample_config env_modifying_then_available []
                         "Starting DR failover procedure" "INFO")
                  ++ [PromoteReadReplica rds_dr (Some (dr_replica_id sample_config))])
                 ++ poll_rounds rds_dr (dr_replica_id sample_config) k)
              (dr_replica_id sample_config) = Some "available".
Proof.
  destruct (initiate_failover sample_config env_modifying_then_available [])
    as [t' [e | response]] eqn:Hrun.
  - exfalso. vm_compute in Hrun. discriminate.
  - exists t', response. split; [reflexivity |].
    exact (proj1 (proj2 (failover_success_needs_available sample_config
                           env_modifying_then_available [] t' response Hrun))).
Defined.
